(** * Esports scraper pipeline ([data_scraper.py]): a shallow embedding

    The development follows the source file top to bottom:

    - text helpers that stand for the pandas string and regex calls of the
      cleaning code ([Series.replace], [Series.str.replace], [astype]);
    - IEEE binary64 numbers (Python [float], NumPy [float64]) through the
      [SpecFloat] definitions of the standard library, and 64-bit integers
      (NumPy's default integer) as [Z] with the range written out;
    - data frames as a list of column labels and a list of rows;
    - a small state-and-exception monad: the state carries what was printed,
      the MySQL store and the numbers of connections opened and closed; an
      uncaught Python exception is the [Raise] outcome;
    - the functions of [data_scraper.py] under their own names, up to
      [main].  The CSV imports of the [__main__] block, which run before
      [main] and touch other relations, are left out.

    Modelling boundary.  Text is a Rocq [string] (bytes, so that a digit is
    an ASCII digit); a cell of a page as delivered by [pd.read_html] is text
    or a missing value.  Decimal literals are rounded correctly, as Python's
    [float] does; the tokenizer behind [pd.to_numeric] agrees with that on
    the integers below 2^53, which is where the properties use it.  The
    store keeps the parameter values exactly as the client sends them: the
    server's column conversions and constraints (string length, integer
    range) are not part of the model, and the server is reachable. *)

From Stdlib Require Import ZArith List String Ascii Bool Lia Arith.
From Stdlib Require Import Floats.SpecFloat.
Import ListNotations.
Local Open Scope string_scope.
Local Open Scope Z_scope.

(* ===================================================================== *)
(** * Text *)
(* ===================================================================== *)

Module Text.

Definition is_digit (c : ascii) : bool :=
  let n := nat_of_ascii c in (48 <=? n)%nat && (n <=? 57)%nat.

Definition digit_val (c : ascii) : Z := Z.of_nat (nat_of_ascii c) - 48.

Definition digit_char (d : Z) : ascii := ascii_of_nat (Z.to_nat (48 + d)).

(** Characters that Python's [str.strip()] and [float()] treat as blank
    (the ASCII part of [Py_UNICODE_ISSPACE]). *)
Definition is_space (c : ascii) : bool :=
  let n := nat_of_ascii c in
  ((9 <=? n)%nat && (n <=? 13)%nat) || ((28 <=? n)%nat && (n <=? 32)%nat).

(** The C locale's [isspace], as used by the pandas tokenizer. *)
Definition is_cspace (c : ascii) : bool :=
  let n := nat_of_ascii c in
  ((9 <=? n)%nat && (n <=? 13)%nat) || (n =? 32)%nat.

Definition lower (c : ascii) : ascii :=
  let n := nat_of_ascii c in
  if (65 <=? n)%nat && (n <=? 90)%nat then ascii_of_nat (n + 32) else c.

Fixpoint all_chars (p : ascii -> bool) (s : string) : bool :=
  match s with
  | EmptyString => true
  | String c s' => p c && all_chars p s'
  end.

Fixpoint filter_chars (p : ascii -> bool) (s : string) : string :=
  match s with
  | EmptyString => EmptyString
  | String c s' => if p c then String c (filter_chars p s') else filter_chars p s'
  end.

Fixpoint map_chars (f : ascii -> ascii) (s : string) : string :=
  match s with
  | EmptyString => EmptyString
  | String c s' => String (f c) (map_chars f s')
  end.

Fixpoint drop_while (p : ascii -> bool) (s : string) : string :=
  match s with
  | EmptyString => EmptyString
  | String c s' => if p c then drop_while p s' else s
  end.

(** [span p s]: the longest prefix of [s] whose characters satisfy [p], and
    the rest. *)
Fixpoint span (p : ascii -> bool) (s : string) : string * string :=
  match s with
  | EmptyString => (EmptyString, EmptyString)
  | String c s' =>
      if p c then let '(a, b) := span p s' in (String c a, b)
      else (EmptyString, s)
  end.

Fixpoint rev_append (s acc : string) : string :=
  match s with
  | EmptyString => acc
  | String c s' => rev_append s' (String c acc)
  end.

Definition rev (s : string) : string := rev_append s EmptyString.

(** [s.strip()] for the given class of blanks. *)
Definition strip (p : ascii -> bool) (s : string) : string :=
  rev (drop_while p (rev (drop_while p s))).

(** [s.replace(pat, "")] for a non-empty [pat]: one left-to-right pass that
    removes the non-overlapping occurrences of [pat].  [skip] counts the
    characters of a matched occurrence that are still to be dropped. *)
Fixpoint remove_sub (pat : string) (skip : nat) (s : string) : string :=
  match s with
  | EmptyString => EmptyString
  | String c s' =>
      match skip with
      | S k => remove_sub pat k s'
      | O =>
          if prefix pat s then remove_sub pat (Nat.pred (String.length pat)) s'
          else String c (remove_sub pat O s')
      end
  end.

Definition str_replace (pat : string) (s : string) : string :=
  remove_sub pat O s.

(** Value of a string of decimal digits, most significant first. *)
Fixpoint digits_acc (acc : Z) (s : string) : Z :=
  match s with
  | EmptyString => acc
  | String c s' => digits_acc (10 * acc + digit_val c) s'
  end.

Definition digits_value (s : string) : Z := digits_acc 0 s.

(** Canonical decimal numeral of a natural number, as [str(n)] writes it. *)
Fixpoint decimal_fuel (fuel : nat) (n : Z) (acc : string) : string :=
  let acc' := String (digit_char (n mod 10)) acc in
  match fuel with
  | O => acc'
  | S f => if n <? 10 then acc' else decimal_fuel f (n / 10) acc'
  end.

Definition decimal (n : Z) : string :=
  decimal_fuel (Z.to_nat (Z.log2 n)) n EmptyString.

End Text.


(* ===================================================================== *)
(** * Numbers: binary64 floats and 64-bit integers *)
(* ===================================================================== *)

Module Num.
Import Text.

Definition prec : Z := 53.
Definition emax : Z := 1024.

Definition float := spec_float.

Definition min_int64 : Z := - 2 ^ 63.
Definition max_int64 : Z := 2 ^ 63 - 1.
Definition max_uint64 : Z := 2 ^ 64 - 1.

Definition in_int64 (z : Z) : bool := (min_int64 <=? z) && (z <=? max_int64).

(** The binary64 number nearest to the integer [z] (ties to even). *)
Definition float_of_Z (z : Z) : float := binary_normalize prec emax z 0 false.

(** The binary64 number nearest to [(-1)^neg * m * 10^e10], [0 <= m]: what a
    correctly rounded [strtod] returns for a decimal literal. *)
Definition float_of_decimal (neg : bool) (m e10 : Z) : float :=
  match m with
  | Zpos p =>
      if 0 <=? e10
      then binary_normalize prec emax (cond_Zopp neg (m * 10 ^ e10)) 0 neg
      else SFdiv prec emax (S754_finite neg p 0)
                 (S754_finite false (Z.to_pos (10 ^ (- e10))) 0)
  | _ => S754_zero neg
  end.

Definition is_nan (f : float) : bool :=
  match f with S754_nan => true | _ => false end.

Definition is_finite (f : float) : bool :=
  match f with S754_zero _ | S754_finite _ _ _ => true | _ => false end.

(** Integer part of a finite float (rounding toward zero). *)
Definition trunc (f : float) : Z :=
  match f with
  | S754_finite s m e => cond_Zopp s (Z.shiftl (Zpos m) e)
  | _ => 0
  end.

(** The C conversion [(int64_t) f] of a finite [f].  Out of the 64-bit range
    the C standard leaves the result undefined; the value here is the one an
    x86-64 conversion instruction delivers. *)
Definition float_to_int64 (f : float) : Z :=
  let z := trunc f in if in_int64 z then z else min_int64.

(** Reinterpreting an unsigned 64-bit integer as a signed one. *)
Definition wrap_int64 (z : Z) : Z :=
  (z + 2 ^ 63) mod 2 ^ 64 - 2 ^ 63.

(** ** Numeric literals *)

Inductive literal :=
| LNum (neg : bool) (mant : Z) (exp10 : Z) (integral : bool)
| LInf (neg : bool)
| LNan.

Definition parse_sign (s : string) : bool * string :=
  match s with
  | String "-" r => (true, r)
  | String "+" r => (false, r)
  | _ => (false, s)
  end.

(** The exponent part of a decimal literal: empty, or [e]/[E], an optional
    sign and at least one digit, up to the end of the text. *)
Definition parse_exponent (s : string) : option Z :=
  match s with
  | EmptyString => Some 0
  | String c r =>
      if Ascii.eqb (lower c) "e" then
        let '(neg, r1) := parse_sign r in
        let '(ds, r2) := span is_digit r1 in
        match ds, r2 with
        | String _ _, EmptyString => Some (cond_Zopp neg (digits_value ds))
        | _, _ => None
        end
      else None
  end.

(** [digits [. digits] [exponent]] or [. digits [exponent]], the whole text. *)
Definition parse_decimal (neg : bool) (s : string) : option literal :=
  let '(ip, r1) := span is_digit s in
  let '(fp, r2, pointed) :=
    match r1 with
    | String "." r => let '(fp, r2) := span is_digit r in (fp, r2, true)
    | _ => (EmptyString, r1, false)
    end in
  match ip ++ fp with
  | EmptyString => None
  | ds =>
      match parse_exponent r2 with
      | Some e =>
          Some (LNum neg (digits_value ds) (e - Z.of_nat (String.length fp))
                     (negb pointed && String.eqb r2 EmptyString))
      | None => None
      end
  end.

Definition parse_word (s : string) : option literal :=
  let '(neg, r) := parse_sign s in
  let w := map_chars lower r in
  if String.eqb w "inf" || String.eqb w "infinity" then Some (LInf neg)
  else if String.eqb w "nan" then Some LNan
  else None.

Definition float_of_literal (l : literal) : float :=
  match l with
  | LNum neg m e _ => float_of_decimal neg m e
  | LInf neg => S754_infinity neg
  | LNan => S754_nan
  end.

(** PEP 515: an underscore is accepted only between two digits; it is then
    ignored.  [prev] is the character before the current position. *)
Fixpoint drop_underscores (prev : ascii) (s : string) : option string :=
  match s with
  | EmptyString => Some EmptyString
  | String c r =>
      if Ascii.eqb c "_" then
        match r with
        | String n _ =>
            if is_digit prev && is_digit n then drop_underscores c r else None
        | EmptyString => None
        end
      else option_map (String c) (drop_underscores c r)
  end.

(** Python's [float(s)] on text; [None] is [ValueError]. *)
Definition py_float (s : string) : option float :=
  match drop_underscores " " (strip is_space s) with
  | None => None
  | Some t =>
      match parse_word t with
      | Some l => Some (float_of_literal l)
      | None =>
          let '(neg, r) := parse_sign t in
          option_map float_of_literal (parse_decimal neg r)
      end
  end.

(** Python's [int(s)] on text, base ten; [None] is [ValueError]. *)
Definition py_int (s : string) : option Z :=
  match drop_underscores " " (strip is_space s) with
  | None => None
  | Some t =>
      let '(neg, r) := parse_sign t in
      match r with
      | EmptyString => None
      | _ => if all_chars is_digit r then Some (cond_Zopp neg (digits_value r))
             else None
      end
  end.

(** What [pd.to_numeric] makes of one text cell: the special words are
    matched on the text as it is, a decimal literal may be surrounded by
    blanks.  [None]: the cell does not parse. *)
Definition pd_parse (s : string) : option literal :=
  match parse_word s with
  | Some l => Some l
  | None =>
      let '(neg, r) := parse_sign (strip is_cspace s) in
      parse_decimal neg r
  end.

End Num.

(* ===================================================================== *)
(** * Python outcomes *)
(* ===================================================================== *)

Inductive exn :=
| ValueError (msg : string)
| KeyError (key : string)
| OverflowError
| IntCastingNaNError
| InvalidIndexError
| DatabaseError (msg : string)
| IOError (msg : string).

(** The outcome of a pure computation that may raise. *)
Inductive result (A : Type) :=
| Ok (a : A)
| Raise (e : exn).
Arguments Ok {A} a.
Arguments Raise {A} e.

Definition rbind {A B} (r : result A) (k : A -> result B) : result B :=
  match r with
  | Ok a => k a
  | Raise e => Raise e
  end.

Declare Scope result_scope.
Delimit Scope result_scope with result.
Notation "x <- c ;; k" := (rbind c (fun x => k))
  (at level 61, c at next level, right associativity) : result_scope.

(** Element-wise application, left to right, stopping at the first raise. *)
Fixpoint mapR {A B} (f : A -> result B) (l : list A) : result (list B) :=
  match l with
  | [] => Ok []
  | x :: t =>
      match f x with
      | Raise e => Raise e
      | Ok y =>
          match mapR f t with
          | Raise e => Raise e
          | Ok ys => Ok (y :: ys)
          end
      end
  end.

(* ===================================================================== *)
(** * Data frames and the pandas calls of the cleaning code *)
(* ===================================================================== *)

Module Pandas.
Import Text Num.

(** A cell of a table as [pd.read_html] delivers it. *)
Inductive cell :=
| CText (s : string)
| CMissing.

(** A cell of a cleaned frame, and a parameter sent to the store. *)
Inductive value :=
| VStr (s : string)
| VInt (z : Z)
| VFloat (f : float)
| VNone.

Record DataFrame (A : Type) := mkFrame {
  columns : list string;
  rows : list (list A)
}.
Arguments mkFrame {A} columns rows.
Arguments columns {A} d.
Arguments rows {A} d.

(** [df.empty]: an axis of length zero. *)
Definition empty {A} (df : DataFrame A) : bool :=
  match columns df, rows df with
  | [], _ | _, [] => true
  | _, _ => false
  end.

Fixpoint index_of (name : string) (labels : list string) : option nat :=
  match labels with
  | [] => None
  | l :: t => if String.eqb l name then Some O
              else option_map S (index_of name t)
  end.

Definition mem (name : string) (labels : list string) : bool :=
  existsb (String.eqb name) labels.

Fixpoint unique (labels : list string) : bool :=
  match labels with
  | [] => true
  | l :: t => negb (mem l t) && unique t
  end.

Fixpoint labels_eqb (a b : list string) : bool :=
  match a, b with
  | [], [] => true
  | x :: a', y :: b' => String.eqb x y && labels_eqb a' b'
  | _, _ => false
  end.

(** [df.columns = labels] *)
Definition set_columns {A} (labels : list string) (df : DataFrame A)
  : result (DataFrame A) :=
  if Nat.eqb (List.length labels) (List.length (columns df))
  then Ok (mkFrame labels (rows df))
  else Raise (ValueError "Length mismatch").

(** [df[name]] *)
Definition column {A} (d : A) (name : string) (df : DataFrame A)
  : result (list A) :=
  match index_of name (columns df) with
  | Some i => Ok (map (fun r => nth i r d) (rows df))
  | None => Raise (KeyError name)
  end.

(** [df.drop(columns=[name])] for a label that is present *)
Definition drop_column {A} (name : string) (df : DataFrame A) : DataFrame A :=
  let keep (l : string) := negb (String.eqb l name) in
  mkFrame (filter keep (columns df))
          (map (fun r => map snd (filter (fun lc => keep (fst lc))
                                         (combine (columns df) r)))
               (rows df)).

(** [df.iloc[:, :n]] *)
Definition iloc_columns {A} (n : nat) (df : DataFrame A) : DataFrame A :=
  mkFrame (firstn n (columns df)) (map (firstn n) (rows df)).

(** A frame built from named series of [n] entries each. *)
Definition frame_of_series (n : nat) (series : list (string * list value))
  : DataFrame value :=
  mkFrame (map fst series)
          (map (fun i => map (fun s => nth i (snd s) VNone) series) (seq 0 n)).

(** [df[labels]] *)
Definition select (labels : list string) (df : DataFrame value)
  : result (DataFrame value) :=
  match mapR (fun l => match index_of l (columns df) with
                       | Some i => Ok i
                       | None => Raise (KeyError l)
                       end) labels with
  | Ok idx => Ok (mkFrame labels
                    (map (fun r => map (fun i => nth i r VNone) idx) (rows df)))
  | Raise e => Raise e
  end.

(** ** [pd.concat(frames, ignore_index=True)] *)

Definition same_columns {A} (frames : list (DataFrame A)) : bool :=
  match frames with
  | [] => true
  | f :: t => forallb (fun g => labels_eqb (columns g) (columns f)) t
  end.

Definition union_columns {A} (frames : list (DataFrame A)) : list string :=
  fold_left (fun acc f => (acc ++ filter (fun l => negb (mem l acc)) (columns f))%list)
            frames [].

Definition reindex (labels : list string) (f : DataFrame cell)
  : list (list cell) :=
  map (fun r => map (fun l => match index_of l (columns f) with
                              | Some i => nth i r CMissing
                              | None => CMissing
                              end) labels)
      (rows f).

(** Frames with one and the same header are stacked.  Otherwise the result
    has the union of the labels, in order of first appearance, and every row
    is aligned to it, a label the row's page lacks giving a missing cell;
    pandas refuses that alignment for a frame whose labels repeat. *)
Definition pd_concat (frames : list (DataFrame cell))
  : result (DataFrame cell) :=
  match frames with
  | [] => Raise (ValueError "No objects to concatenate")
  | f :: _ =>
      if same_columns frames
      then Ok (mkFrame (columns f) (flat_map rows frames))
      else if forallb (fun g => unique (columns g)) frames
      then let u := union_columns frames in
           Ok (mkFrame u (flat_map (reindex u) frames))
      else Raise InvalidIndexError
  end.

(** ** Series operations *)

(** [s.astype(str)] on a raw column *)
Definition astype_str (s : list cell) : list string :=
  map (fun c => match c with CText t => t | CMissing => "nan" end) s.

(** The character class of the pattern [r'[\$,]'] *)
Definition is_currency_mark (c : ascii) : bool :=
  Ascii.eqb c "$" || Ascii.eqb c ",".

(** [s.replace(r'[\$,]', '', regex=True)]: text cells lose the characters of
    the class, other cells are left alone. *)
Definition replace_currency (s : list cell) : list cell :=
  map (fun c => match c with
                | CText t => CText (filter_chars (fun a => negb (is_currency_mark a)) t)
                | CMissing => CMissing
                end) s.

(** [s.astype(float)] on a raw column *)
Definition astype_float (s : list cell) : result (list float) :=
  mapR (fun c => match c with
                 | CText t => match py_float t with
                              | Some f => Ok f
                              | None => Raise (ValueError "could not convert string to float")
                              end
                 | CMissing => Ok S754_nan
                 end) s.

(** [s.astype(float)] on a column of text *)
Definition astype_float_str (s : list string) : result (list float) :=
  astype_float (map CText s).

(** [s.astype(int)] on a column of floats *)
Definition astype_int (s : list float) : result (list Z) :=
  if forallb is_finite s then Ok (map float_to_int64 s)
  else Raise IntCastingNaNError.

(** [s.astype(int)] on a column of text *)
Definition astype_int_str (s : list string) : result (list Z) :=
  mapR (fun t => match py_int t with
                 | None => Raise (ValueError "invalid literal for int()")
                 | Some z => if in_int64 z then Ok z else Raise OverflowError
                 end) s.

(** ** [pd.to_numeric(s, errors='coerce')] on a column of text *)

Inductive numeric_column :=
| IntColumn (l : list Z)        (* dtype int64 *)
| UIntColumn (l : list Z)       (* dtype uint64 *)
| FloatColumn (l : list float). (* dtype float64 *)

(** An integer-looking cell, and its value. *)
Definition int_literal (p : option literal) : option Z :=
  match p with
  | Some (LNum neg m 0 true) => Some (cond_Zopp neg m)
  | _ => None
  end.

(** The column is [float64] as soon as one cell is not an integer that fits
    64 bits, or when signed and unsigned 64-bit integers are mixed. *)
Definition to_numeric_coerce (s : list string) : numeric_column :=
  let ps := map pd_parse s in
  let fits p := match int_literal p with
                | Some z => (min_int64 <=? z) && (z <=? max_uint64)
                | None => false
                end in
  let is_uint p := match int_literal p with
                   | Some z => max_int64 <? z
                   | None => false
                   end in
  let is_sint p := match int_literal p with
                   | Some z => z <? 0
                   | None => false
                   end in
  let ints := map (fun p => match int_literal p with Some z => z | None => 0 end) ps in
  if forallb fits ps && negb (existsb is_uint ps && existsb is_sint ps)
  then if existsb is_uint ps then UIntColumn ints else IntColumn ints
  else FloatColumn (map (fun p => match p with
                                  | Some l => float_of_literal l
                                  | None => S754_nan
                                  end) ps).

(** [s.fillna(0).astype(int)] *)
Definition fillna0_astype_int (c : numeric_column) : result (list Z) :=
  match c with
  | IntColumn l => Ok l
  | UIntColumn l => Ok (map wrap_int64 l)
  | FloatColumn l =>
      astype_int (map (fun f => if is_nan f then S754_zero false else f) l)
  end.

(** ** [df.drop_duplicates()] *)

(** Equality of two floats as the hash tables of pandas see it: a missing
    value equals a missing value, and the two zeros are equal.  Numbers
    here come out of the rounding functions, so that equal numbers have one
    mantissa and exponent. *)
Definition float_eqb (a b : float) : bool :=
  match a, b with
  | S754_nan, S754_nan => true
  | S754_zero _, S754_zero _ => true
  | S754_infinity s, S754_infinity t => Bool.eqb s t
  | S754_finite s m e, S754_finite t n f =>
      Bool.eqb s t && Pos.eqb m n && Z.eqb e f
  | _, _ => false
  end.

(** Equality of two entries of one column. *)
Definition value_eqb (a b : value) : bool :=
  match a, b with
  | VStr s, VStr t => String.eqb s t
  | VInt x, VInt y => Z.eqb x y
  | VFloat f, VFloat g => float_eqb f g
  | VNone, VNone => true
  | _, _ => false
  end.

(** Two records are duplicates when they agree field by field. *)
Fixpoint row_eqb (a b : list value) : bool :=
  match a, b with
  | [], [] => true
  | x :: a', y :: b' => value_eqb x y && row_eqb a' b'
  | _, _ => false
  end.

(** Rows are visited in order; [seen] holds the rows kept so far, and a row
    equal to one of them is dropped. *)
Fixpoint keep_first {A} (eqb : A -> A -> bool) (seen : list A) (l : list A)
  : list A :=
  match l with
  | [] => []
  | r :: t =>
      if existsb (eqb r) seen then keep_first eqb seen t
      else r :: keep_first eqb (r :: seen) t
  end.

Definition drop_duplicates (df : DataFrame value) : DataFrame value :=
  mkFrame (columns df) (keep_first row_eqb [] (rows df)).

(** The deduplication contract in the specification's words: the
    subsequence of the records whose tuple has not appeared earlier in the
    sequence.  [earlier] lists every record met so far, kept or not. *)
Fixpoint not_seen_earlier {A} (eqb : A -> A -> bool) (earlier : list A)
    (l : list A) : list A :=
  match l with
  | [] => []
  | r :: t =>
      if existsb (eqb r) earlier
      then not_seen_earlier eqb (earlier ++ [r]) t
      else r :: not_seen_earlier eqb (earlier ++ [r]) t
  end.

(** No two entries of the list are equal. *)
Definition distinct {A} (eqb : A -> A -> bool) (l : list A) : Prop :=
  ForallOrdPairs (fun x y => eqb x y = false) l.

(** Every entry of [l] equals some entry of [m]. *)
Definition covered {A} (eqb : A -> A -> bool) (l m : list A) : Prop :=
  forall x, In x l -> existsb (eqb x) m = true.

(** [df.where(pd.notnull(df), None)] *)
Definition where_notnull (df : DataFrame value) : DataFrame value :=
  mkFrame (columns df)
          (map (map (fun v => match v with
                              | VFloat f => if is_nan f then VNone else v
                              | _ => v
                              end)) (rows df)).

End Pandas.

(* ===================================================================== *)
(** * The MySQL store *)
(* ===================================================================== *)

Module Store.
Import Pandas.

Inductive sqltype :=
| INT
| BIGINT
| FLOAT
| VARCHAR (n : nat).

(** One column of a [CREATE TABLE]; [c_auto] marks
    [AUTO_INCREMENT PRIMARY KEY]. *)
Record column_def := mkColumn {
  c_name : string;
  c_type : sqltype;
  c_auto : bool
}.

(** A stored row lists one value per declared column, in declaration order. *)
Record table := mkTable {
  t_columns : list column_def;
  t_rows : list (list value);
  t_next : Z
}.

Definition database := list (string * table).

Fixpoint lookup (name : string) (db : database) : option table :=
  match db with
  | [] => None
  | (n, t) :: rest => if String.eqb n name then Some t else lookup name rest
  end.

Fixpoint replace (name : string) (t' : table) (db : database) : database :=
  match db with
  | [] => []
  | (n, t) :: rest =>
      if String.eqb n name then (n, t') :: rest
      else (n, t) :: replace name t' rest
  end.

(** [CREATE TABLE IF NOT EXISTS name (defs)] *)
Definition create_table_if_not_exists (name : string) (defs : list column_def)
    (db : database) : database :=
  match lookup name db with
  | Some _ => db
  | None => (db ++ [(name, mkTable defs [] 1)])%list
  end.

(** The stored row for one parameter tuple: a listed column takes its
    parameter, the key column the next counter value, any other column
    NULL. *)
Definition stored_row (defs : list column_def) (cols : list string)
    (id : Z) (params : list value) : list value :=
  map (fun c => match index_of (c_name c) cols with
                | Some i => nth i params VNone
                | None => if c_auto c then VInt id else VNone
                end) defs.

Fixpoint stored_rows (defs : list column_def) (cols : list string)
    (id : Z) (data : list (list value)) : list (list value) :=
  match data with
  | [] => []
  | r :: rest => stored_row defs cols id r :: stored_rows defs cols (id + 1) rest
  end.

(** [INSERT INTO name (cols) VALUES (...)] for a batch of parameter tuples:
    all of the batch, or an error and no change. *)
Definition insert_rows (name : string) (cols : list string)
    (data : list (list value)) (db : database) : result database :=
  match lookup name db with
  | None => Raise (DatabaseError "Table doesn't exist")
  | Some t =>
      if negb (forallb (fun c => mem c (map c_name (t_columns t))) cols)
      then Raise (DatabaseError "Unknown column")
      else if negb (forallb (fun r => Nat.eqb (List.length r) (List.length cols)) data)
      then Raise (DatabaseError "Wrong number of parameters")
      else Ok (replace name
                 (mkTable (t_columns t)
                    (t_rows t ++ stored_rows (t_columns t) cols (t_next t) data)%list
                    (t_next t + Z.of_nat (List.length data)))
                 db)
  end.

End Store.

(* ===================================================================== *)
(** * [data_scraper.py] *)
(* ===================================================================== *)

Module Scraper.
Import Text Num Pandas Store.

(** One constructor per [print] of the source, with the interpolated
    values. *)
Inductive line :=
| Starting                                   (* Starting Esports Scraper + DB Inserter *)
| AllDone                                    (* All data scraped and inserted successfully! *)
| ScrapingCountries
| ScrapingPlayers
| ScrapingTournaments
| ScrapingTeams
| ErrorFetching (url : string) (e : exn)     (* Error fetching {url}: {e} *)
| NoTableFoundAt (url : string)              (* No table found at: {url} *)
| AvailableColumns (dataset : string) (labels : list string)
| NoDataForTable (table : string)            (* No data for table `{table}` *)
| Inserted (rowcount : nat) (table : string) (* Inserted {rowcount} rows into `{table}` *)
| InsertError (table : string) (e : exn)     (* Insert error in `{table}`: {e} *)
| NoCountryData                              (* No country data found. *)
| FailedPlayers                              (* Failed to fetch player data. *)
| NoTournamentData                           (* No tournament data fetched. *)
| SavedCsvNotice                             (* Data successfully saved to '...csv' *)
| FailedTeams.                               (* Failed to fetch team data. *)

(** What the program changes: the lines printed so far, the database
    [esports_data] on the server ([None]: it does not exist yet), and the
    numbers of connections opened and closed. *)
Record State := mkState {
  stdout : list line;
  server : option database;
  opened : nat;
  closed : nat
}.

(** What the program reads: [pd.read_html(url)] returns the tables of the
    page or raises. *)
Record World := mkWorld {
  read_html : string -> result (list (DataFrame cell))
}.

Definition M (A : Type) : Type := State -> result A * State.

Definition ret {A} (a : A) : M A := fun s => (Ok a, s).

Definition bind {A B} (c : M A) (k : A -> M B) : M B :=
  fun s => match c s with
           | (Ok a, s') => k a s'
           | (Raise e, s') => (Raise e, s')
           end.

Definition lift {A} (r : result A) : M A := fun s => (r, s).

(** [try: body  except Exception as e: handler(e)] *)
Definition try_except {A} (body : M A) (handler : exn -> M A) : M A :=
  fun s => match body s with
           | (Ok a, s') => (Ok a, s')
           | (Raise e, s') => handler e s'
           end.

(** [try: body  finally: final] *)
Definition try_finally {A} (body : M A) (final : M unit) : M A :=
  fun s => match body s with
           | (r, s') => match final s' with
                        | (Ok _, s'') => (r, s'')
                        | (Raise e, s'') => (Raise e, s'')
                        end
           end.

Declare Scope m_scope.
Delimit Scope m_scope with M.
Notation "x <- c ;; k" := (bind c (fun x => k))
  (at level 61, c at next level, right associativity) : m_scope.
Notation "c ;;; k" := (bind c (fun _ => k))
  (at level 61, right associativity) : m_scope.

Fixpoint forM {A} (l : list A) (f : A -> M unit) : M unit :=
  match l with
  | [] => ret tt
  | x :: t => bind (f x) (fun _ => forM t f)
  end.

Definition print (l : line) : M unit :=
  fun s => (Ok tt, mkState (stdout s ++ [l]) (server s) (opened s) (closed s)).

(** ** MySQL configuration and database setup *)

Definition DB_NAME : string := "esports_data".

Definition get_connection : M unit :=
  fun s => (Ok tt, mkState (stdout s) (server s) (S (opened s)) (closed s)).

Definition close_connection : M unit :=
  fun s => (Ok tt, mkState (stdout s) (server s) (opened s) (S (closed s))).

(** [CREATE DATABASE IF NOT EXISTS esports_data] *)
Definition create_database : M unit :=
  fun s => (Ok tt,
            mkState (stdout s)
                    (match server s with Some db => Some db | None => Some [] end)
                    (opened s) (closed s)).

(** [USE esports_data] *)
Definition use_database : M unit :=
  fun s => match server s with
           | Some _ => (Ok tt, s)
           | None => (Raise (DatabaseError "Unknown database"), s)
           end.

Definition create_table (name : string) (defs : list column_def) : M unit :=
  fun s => match server s with
           | Some db =>
               (Ok tt, mkState (stdout s)
                               (Some (create_table_if_not_exists name defs db))
                               (opened s) (closed s))
           | None => (Raise (DatabaseError "No database selected"), s)
           end.

(** The dictionary [tables] of [init_database]: key, and the table name and
    column list of its [CREATE TABLE IF NOT EXISTS] statement.  The server
    is taken to accept the four statements, as the MariaDB of the XAMPP
    setup named in the source does (the key column of [players] is called
    [rank]). *)
Definition tables : list (string * (string * list column_def)) :=
  [ ("countries",
     ("countries",
      [ mkColumn "id" INT true;
        mkColumn "name" (VARCHAR 100) false;
        mkColumn "total_earnings" BIGINT false;
        mkColumn "num_players" INT false;
        mkColumn "top_game" (VARCHAR 100) false;
        mkColumn "game_earnings" BIGINT false;
        mkColumn "game_percent" FLOAT false ]));
    ("players",
     ("players",
      [ mkColumn "rank" INT true;
        mkColumn "player_id" (VARCHAR 100) false;
        mkColumn "player_name" (VARCHAR 100) false;
        mkColumn "total_earnings" BIGINT false;
        mkColumn "main_game" (VARCHAR 100) false;
        mkColumn "earnings_percent" FLOAT false ]));
    ("tournaments",
     ("tournaments",
      [ mkColumn "id" INT true;
        mkColumn "tournament_name" (VARCHAR 200) false;
        mkColumn "prize_pool" BIGINT false;
        mkColumn "game" (VARCHAR 100) false;
        mkColumn "participate_team" INT false;
        mkColumn "no_of_player" INT false ]));
    ("teams",
     ("teams",
      [ mkColumn "id" INT true;
        mkColumn "team_name" (VARCHAR 255) false;
        mkColumn "revenue" INT false;
        mkColumn "tournaments_played" INT false ])) ].

Local Open Scope m_scope.

Definition init_database : M unit :=
  get_connection ;;;
  create_database ;;;
  use_database ;;;
  forM tables (fun entry => create_table (fst (snd entry)) (snd (snd entry))) ;;;
  (* conn.commit(); cursor.close() *)
  close_connection.

(** ** Web scraping *)

Section WithWorld.
Variable w : World.

Definition fetch_html_table (url : string) : M (option (DataFrame cell)) :=
  match read_html w url with
  | Ok tables => ret (hd_error tables)
  | Raise e => print (ErrorFetching url e) ;;; ret None
  end.

Fixpoint fetch_all (urls : list string) : M (list (option (DataFrame cell))) :=
  match urls with
  | [] => ret []
  | url :: rest =>
      df <- fetch_html_table url ;;
      dfs <- fetch_all rest ;;
      ret (df :: dfs)
  end.

Fixpoint somes {A} (l : list (option A)) : list A :=
  match l with
  | [] => []
  | Some x :: t => x :: somes t
  | None :: t => somes t
  end.

Definition fetch_multiple_tables (urls : list string)
  : M (option (DataFrame cell)) :=
  frames <- fetch_all urls ;;
  let frames := somes frames in
  match frames with
  | [] => ret None
  | _ => df <- lift (pd_concat frames) ;; ret (Some df)
  end.

(** ** Insert into MySQL *)

Definition executemany (table : string) (cols : list string)
    (data : list (list value)) : M nat :=
  fun s => match server s with
           | None => (Raise (DatabaseError "No database selected"), s)
           | Some db =>
               match insert_rows table cols data db with
               | Ok db' => (Ok (List.length data),
                            mkState (stdout s) (Some db') (opened s) (closed s))
               | Raise e => (Raise e, s)
               end
           end.

Definition insert_into_mysql (df : option (DataFrame value)) (table : string)
    (cols : list string) : M unit :=
  match df with
  | None => print (NoDataForTable table)
  | Some d =>
      if empty d then print (NoDataForTable table)
      else
        get_connection ;;;
        use_database ;;;
        try_finally
          (try_except
             (sel <- lift (select cols d) ;;
              let data := rows (where_notnull sel) in
              rowcount <- executemany table cols data ;;
              (* conn.commit() *)
              print (Inserted rowcount table))
             (fun e => print (InsertError table e)))
          close_connection
  end.

(** [range(start, stop, step)] for a positive step *)
Definition py_range (start stop step : Z) : list Z :=
  map (fun k => start + Z.of_nat k * step)
      (seq 0 (Z.to_nat ((stop - start + step - 1) / step))).

(** [f"{base}{sep}{i}" if i else base for i in range(0, stop, 100)] *)
Definition paged_urls (base sep : string) (stop : Z) : list string :=
  map (fun i => if i =? 0 then base else base ++ sep ++ decimal i)
      (py_range 0 stop 100).

Local Open Scope result_scope.

Definition value_of_cell (c : cell) : value :=
  match c with
  | CText t => VStr t
  | CMissing => VFloat S754_nan
  end.

(** The currency columns: [s.replace(r'[\$,]', '', regex=True).astype(float)] *)
Definition clean_currency (s : list cell) : result (list float) :=
  astype_float (replace_currency s).

(** ... followed by [.astype(int)] *)
Definition clean_currency_int (s : list cell) : result (list Z) :=
  fs <- clean_currency s ;; astype_int fs.

(** [s.astype(str).str.replace('%', '').astype(float)] *)
Definition clean_percent (s : list cell) : result (list float) :=
  astype_float_str (map (str_replace "%") (astype_str s)).

(** [s.astype(str).str.replace(r'[^\d]', '', regex=True).astype(int)] *)
Definition clean_digits (s : list cell) : result (list Z) :=
  astype_int_str (map (filter_chars is_digit) (astype_str s)).

(** Lines 233 and 234 of [scrape_teams]:
    [s.astype(str).str.replace(" Tournaments", "").str.replace(",", "")],
    then [pd.to_numeric(s, errors='coerce').fillna(0).astype(int)]. *)
Definition clean_tournaments_played (s : list cell) : result (list Z) :=
  let texts := map (str_replace ",")
                 (map (str_replace " Tournaments") (astype_str s)) in
  fillna0_astype_int (to_numeric_coerce texts).

(** The body of [scrape_countries] between the fetch and the insert. *)
Definition clean_countries (df : DataFrame cell) : result (DataFrame value) :=
  df <- set_columns ["rank"; "name"; "total_earnings"; "num_players";
                     "top_game"; "game_earnings"; "game_percent"] df ;;
  name <- column CMissing "name" df ;;
  let name := astype_str name in
  total_earnings <- column CMissing "total_earnings" df ;;
  total_earnings <- clean_currency total_earnings ;;
  num_players <- column CMissing "num_players" df ;;
  num_players <- clean_digits num_players ;;
  top_game <- column CMissing "top_game" df ;;
  let top_game := astype_str top_game in
  game_earnings <- column CMissing "game_earnings" df ;;
  game_earnings <- clean_currency game_earnings ;;
  game_percent <- column CMissing "game_percent" df ;;
  game_percent <- clean_percent game_percent ;;
  Ok (drop_duplicates
        (frame_of_series (List.length (rows df))
           [ ("name", map VStr name);
             ("total_earnings", map VFloat total_earnings);
             ("num_players", map VInt num_players);
             ("top_game", map VStr top_game);
             ("game_earnings", map VFloat game_earnings);
             ("game_percent", map VFloat game_percent) ])).

(** The label of the column that [scrape_players] drops: U+00C2. *)
Definition A_CIRCUMFLEX : string := "Â".

(** The body of [scrape_players] from the column drop to the
    deduplication. *)
Definition clean_players (df : DataFrame cell) : result (DataFrame value) :=
  let df := if mem A_CIRCUMFLEX (columns df)
            then drop_column A_CIRCUMFLEX df else df in
  df <- set_columns ["player_id"; "player_name"; "total_earnings";
                     "main_game"; "game_earnings"; "earnings_percent"] df ;;
  player_id <- column CMissing "player_id" df ;;
  let player_id := astype_str player_id in
  player_name <- column CMissing "player_name" df ;;
  let player_name := astype_str player_name in
  total_earnings <- column CMissing "total_earnings" df ;;
  total_earnings <- clean_currency_int total_earnings ;;
  main_game <- column CMissing "main_game" df ;;
  let main_game := astype_str main_game in
  earnings_percent <- column CMissing "earnings_percent" df ;;
  earnings_percent <- clean_percent earnings_percent ;;
  Ok (drop_duplicates
        (frame_of_series (List.length (rows df))
           [ ("player_id", map VStr player_id);
             ("player_name", map VStr player_name);
             ("total_earnings", map VInt total_earnings);
             ("main_game", map VStr main_game);
             ("earnings_percent", map VFloat earnings_percent) ])).

(** The body of [scrape_tournaments] from the column cut to the
    deduplication. *)
Definition clean_tournaments (combined_df : DataFrame cell)
  : result (DataFrame value) :=
  let combined_df := iloc_columns 4 combined_df in
  combined_df <- set_columns ["rank"; "tournament_name"; "prize_pool"; "game"]
                             combined_df ;;
  prize_pool <- column CMissing "prize_pool" combined_df ;;
  prize_pool <- clean_currency_int prize_pool ;;
  tournament_name <- column CMissing "tournament_name" combined_df ;;
  game <- column CMissing "game" combined_df ;;
  Ok (drop_duplicates
        (frame_of_series (List.length (rows combined_df))
           [ ("tournament_name", map value_of_cell tournament_name);
             ("prize_pool", map VInt prize_pool);
             ("game", map value_of_cell game) ])).

(** The body of [scrape_teams] between the fetch and the insert. *)
Definition clean_teams (df : DataFrame cell) : result (DataFrame value) :=
  df <- set_columns ["rank"; "team_name"; "revenue"; "tournaments_played"] df ;;
  team_name <- column CMissing "team_name" df ;;
  let team_name := astype_str team_name in
  revenue <- column CMissing "revenue" df ;;
  revenue <- clean_currency_int revenue ;;
  tournaments_played <- column CMissing "tournaments_played" df ;;
  tournaments_played <- clean_tournaments_played tournaments_played ;;
  Ok (drop_duplicates
        (frame_of_series (List.length (rows df))
           [ ("team_name", map VStr team_name);
             ("revenue", map VInt revenue);
             ("tournaments_played", map VInt tournaments_played) ])).

Local Close Scope result_scope.
Local Open Scope m_scope.

Definition countries_url : string := "https://www.esportsearnings.com/countries".

Definition scrape_countries : M unit :=
  print ScrapingCountries ;;;
  df <- fetch_html_table countries_url ;;
  match df with
  | Some df =>
      df <- lift (clean_countries df) ;;
      insert_into_mysql (Some df) "countries"
        ["name"; "total_earnings"; "num_players"; "top_game";
         "game_earnings"; "game_percent"]
  | None => print NoCountryData
  end.

Definition players_urls : list string :=
  paged_urls "https://www.esportsearnings.com/players/highest-earnings"
             "-top-" 1001.

Definition scrape_players : M unit :=
  print ScrapingPlayers ;;;
  df <- fetch_multiple_tables players_urls ;;
  match df with
  | Some df =>
      print (AvailableColumns "players" (columns df)) ;;;
      df <- lift (clean_players df) ;;
      insert_into_mysql (Some df) "players"
        ["player_id"; "player_name"; "total_earnings"; "main_game";
         "earnings_percent"]
  | None => print FailedPlayers
  end.

Definition tournaments_urls : list string :=
  [ "https://www.esportsearnings.com/tournaments/largest-overall-prize-pools";
    "https://www.esportsearnings.com/tournaments/largest-overall-prize-pools-x100";
    "https://www.esportsearnings.com/tournaments/largest-overall-prize-pools-x200";
    "https://www.esportsearnings.com/tournaments/largest-overall-prize-pools-x300";
    "https://www.esportsearnings.com/tournaments/largest-overall-prize-pools-x400" ].

(** The [for url in urls] loop of [scrape_tournaments]; the result is
    [dfs]. *)
Fixpoint fetch_tournament_pages (urls : list string)
  : M (list (DataFrame cell)) :=
  match urls with
  | [] => ret []
  | url :: rest =>
      here <- match read_html w url with
              | Ok (t :: _) => ret [t]
              | Ok [] => print (NoTableFoundAt url) ;;; ret []
              | Raise e => print (ErrorFetching url e) ;;; ret []
              end ;;
      later <- fetch_tournament_pages rest ;;
      ret (here ++ later)%list
  end.

Definition scrape_tournaments : M unit :=
  print ScrapingTournaments ;;;
  dfs <- fetch_tournament_pages tournaments_urls ;;
  match dfs with
  | _ :: _ =>
      combined_df <- lift (pd_concat dfs) ;;
      final_df <- lift (clean_tournaments combined_df) ;;
      insert_into_mysql (Some final_df) "tournaments"
        ["tournament_name"; "prize_pool"; "game"]
  | [] => print NoTournamentData
  end.

Definition teams_urls : list string :=
  paged_urls "https://www.esportsearnings.com/teams/highest-overall" "-x" 500.

Definition scrape_teams : M unit :=
  print ScrapingTeams ;;;
  df <- fetch_multiple_tables teams_urls ;;
  match df with
  | Some df =>
      print (AvailableColumns "teams" (columns df)) ;;;
      df <- lift (clean_teams df) ;;
      insert_into_mysql (Some df) "teams"
        ["team_name"; "revenue"; "tournaments_played"]
  | None =>
      print SavedCsvNotice ;;;
      print FailedTeams
  end.

(** ** Main *)

Definition main : M unit :=
  print Starting ;;;
  init_database ;;;
  scrape_countries ;;;
  scrape_players ;;;
  scrape_tournaments ;;;
  scrape_teams ;;;
  print AllDone.

End WithWorld.

Local Close Scope m_scope.

(** The store after the [for table_name, table_sql in tables.items()] loop
    of [init_database], started from the relations [db]. *)
Definition initialized (db : database) : database :=
  fold_left (fun acc entry =>
               create_table_if_not_exists (fst (snd entry)) (snd (snd entry)) acc)
            tables db.

(** The columns of a relation other than its key. *)
Definition fields (t : table) : list string :=
  map c_name (filter (fun c => negb (c_auto c)) (t_columns t)).

(** The key columns of a relation. *)
Definition keys (t : table) : list column_def :=
  filter c_auto (t_columns t).

(** What one page contributes to a dataset: its first table, when the fetch
    succeeds and the page has a table. *)
Definition page_of (w : World) (url : string) : option (DataFrame cell) :=
  match read_html w url with
  | Ok tables => hd_error tables
  | Raise _ => None
  end.

(** The lines [fetch_html_table] prints over a list of pages: one per page
    whose fetch raises. *)
Definition error_lines (w : World) (urls : list string) : list line :=
  flat_map (fun url => match read_html w url with
                       | Ok _ => []
                       | Raise e => [ErrorFetching url e]
                       end) urls.

(** A state with more lines printed and nothing else changed. *)
Definition printed (s : State) (ls : list line) : State :=
  mkState (stdout s ++ ls) (server s) (opened s) (closed s).

(** ** The input forms the specification names *)

(** A string of decimal digits, at least one. *)
Definition digits (s : string) : bool :=
  match s with
  | EmptyString => false
  | _ => all_chars is_digit s
  end.

Fixpoint flat (gs : list string) : string :=
  match gs with
  | [] => EmptyString
  | d :: t => d ++ flat t
  end.

Fixpoint comma_groups (gs : list string) : string :=
  match gs with
  | [] => EmptyString
  | d :: t => "," ++ d ++ comma_groups t
  end.

(** The text ["$" g ("," d)*] for the digit groups [g] and [gs]. *)
Definition currency_text (g : string) (gs : list string) : string :=
  "$" ++ g ++ comma_groups gs.

(** The number that text writes. *)
Definition currency_value (g : string) (gs : list string) : Z :=
  digits_value (g ++ flat gs).

(** The text ["N Tournaments"] for the natural number [n]. *)
Definition tournaments_text (n : Z) : string := decimal n ++ " Tournaments".

(** The text that reaches [pd.to_numeric] for a cell of the column
    [tournaments_played]. *)
Definition count_text (c : cell) : string :=
  str_replace ","
    (str_replace " Tournaments"
       (match c with CText t => t | CMissing => "nan" end)).

(** ** The printed output of a run *)

(** The lines that report the outcome of loading a dataset. *)
Definition is_status_line (l : line) : bool :=
  match l with
  | Inserted _ _ | InsertError _ _ | NoDataForTable _
  | NoCountryData | FailedPlayers | NoTournamentData | FailedTeams => true
  | _ => false
  end.

(** The status lines of one dataset. *)
Definition is_status (table : string) (l : line) : bool :=
  match l with
  | Inserted _ t | InsertError t _ | NoDataForTable t => String.eqb t table
  | NoCountryData => String.eqb table "countries"
  | FailedPlayers => String.eqb table "players"
  | NoTournamentData => String.eqb table "tournaments"
  | FailedTeams => String.eqb table "teams"
  | _ => false
  end.

(** The datasets in the order [main] runs them: banner line and relation. *)
Definition datasets : list (line * string) :=
  [ (ScrapingCountries, "countries"); (ScrapingPlayers, "players");
    (ScrapingTournaments, "tournaments"); (ScrapingTeams, "teams") ].

(** [run_output ds finished out]: [out] is what a run over the datasets
    [ds] prints.  A dataset that is run to its end prints its banner, lines
    that are no status lines, and one status line of its own.  A run that
    is not finished stops inside the block of a dataset, before any status
    line of it. *)
Inductive run_output : list (line * string) -> bool -> list line -> Prop :=
| run_finished : run_output [] true []
| run_block banner table rest finished mid l out :
    Forall (fun x => is_status_line x = false) mid ->
    is_status table l = true ->
    run_output rest finished out ->
    run_output ((banner, table) :: rest) finished
               (banner :: mid ++ l :: out)%list
| run_stopped banner table rest mid :
    Forall (fun x => is_status_line x = false) mid ->
    run_output ((banner, table) :: rest) false (banner :: mid).

(** What one scraper does to the output, from the state [s]: a whole block
    when it returns, a block without status line when it raises. *)
Definition block_result (banner : line) (table : string) (s : State)
    (rs : result unit * State) : Prop :=
  exists mid,
    Forall (fun x => is_status_line x = false) mid /\
    match fst rs with
    | Ok _ => exists l, is_status table l = true /\
                        stdout (snd rs) = (stdout s ++ banner :: mid ++ [l])%list
    | Raise _ => stdout (snd rs) = (stdout s ++ banner :: mid)%list
    end.

(** The lines the page loop of [scrape_tournaments] prints. *)
Definition tournament_lines (w : World) (urls : list string) : list line :=
  flat_map (fun url => match read_html w url with
                       | Ok (_ :: _) => []
                       | Ok [] => [NoTableFoundAt url]
                       | Raise e => [ErrorFetching url e]
                       end) urls.

(** The tables the page loop of [scrape_tournaments] collects. *)
Definition tournament_pages (w : World) (urls : list string)
  : list (DataFrame cell) :=
  flat_map (fun url => match read_html w url with
                       | Ok (t :: _) => [t]
                       | _ => []
                       end) urls.

(** The columns [init_database] declares for a relation. *)
Definition declared (name : string) : list column_def :=
  match find (fun e => String.eqb (fst (snd e)) name) tables with
  | Some e => snd (snd e)
  | None => []
  end.

(** ** Example pages *)

(** A world that serves the listed pages, one table each, and fails with
    HTTP 404 elsewhere. *)
Fixpoint serve (pages : list (string * DataFrame cell)) (url : string)
  : result (list (DataFrame cell)) :=
  match pages with
  | [] => Raise (IOError "HTTP Error 404: Not Found")
  | (u, p) :: rest => if String.eqb u url then Ok [p] else serve rest url
  end.

Definition world_of (pages : list (string * DataFrame cell)) : World :=
  mkWorld (serve pages).

Definition teams_url : string :=
  "https://www.esportsearnings.com/teams/highest-overall".

Definition players_url : string :=
  "https://www.esportsearnings.com/players/highest-earnings".

(** The page of the end-to-end example, with the rank column the site
    has. *)
Definition teams_page (labels : list string) (r1 r2 r3 : cell)
  : DataFrame cell :=
  mkFrame labels
    [ [r1; CText "TeamA"; CText "$500"; CText "10 Tournaments"];
      [r2; CText "TeamA"; CText "$500"; CText "10 Tournaments"];
      [r3; CText "TeamB"; CText "$300"; CText "4 Tournaments"] ].

(** The rows of the end-to-end example as the specification lists them:
    three cells each. *)
Definition teams_page_three_columns : DataFrame cell :=
  mkFrame ["Team Name"; "Total Revenue"; "Tournaments"]
    [ [CText "TeamA"; CText "$500"; CText "10 Tournaments"];
      [CText "TeamA"; CText "$500"; CText "10 Tournaments"];
      [CText "TeamB"; CText "$300"; CText "4 Tournaments"] ].

(** The two rows the example expects in the relation [teams], with their
    keys. *)
Definition teams_loaded : list (list value) :=
  [ [VInt 1; VStr "TeamA"; VInt 500; VInt 10];
    [VInt 2; VStr "TeamB"; VInt 300; VInt 4] ].

(** A players page: the rank column under the label that [scrape_players]
    drops, and six more columns. *)
Definition players_page : DataFrame cell :=
  mkFrame [A_CIRCUMFLEX; "Player ID"; "Player Name"; "Total (Overall)";
           "Highest Paying Game"; "Total (Game)"; "% of Total"]
    [ [CText "1."; CText "N0tail"; CText "Johan Sundstein";
       CText "$7,184,163"; CText "Dota 2"; CText "$7,172,436";
       CText "99.84%"] ].

(** A countries page that lacks five of the seven columns. *)
Definition countries_page_two_columns : DataFrame cell :=
  mkFrame ["Country"; "Total"] [ [CText "Denmark"; CText "$1,000"] ].

(** A countries page of seven columns with an earnings cell that is no
    number. *)
Definition countries_page_unparsable : DataFrame cell :=
  mkFrame ["Unnamed: 0"; "Country"; "Total"; "Players"; "Top Game";
           "Total (Game)"; "% of Total"]
    [ [CText "1."; CText "Denmark"; CText "N/A"; CText "1,500 Players";
       CText "Dota 2"; CText "$500"; CText "50.00%"] ].

(** The state of a first run: nothing printed, no database on the server. *)
Definition fresh : State := mkState [] None 0 0.

End Scraper.

(* ===================================================================== *)
(** * [setup_database.py] *)
(* ===================================================================== *)

Module Setup.

(** One constructor per [print] of the source. *)
Inductive line :=
| Title                           (* Esports Analytics Dashboard - Database Setup *)
| Rule                            (* "=" * 50 *)
| ScraperMissing                  (* data_scraper.py not found in current directory *)
| ConnectionOk                    (* MySQL connection successful *)
| ConnectionFailed (e : exn)      (* MySQL connection failed: {e} *)
| ConnectionHint                  (* Make sure XAMPP/MySQL is running *)
| PleaseStart                     (* Please start your MySQL server (XAMPP) and try again *)
| SettingUp                       (* Setting up database and populating with data... *)
| RunningScraper                  (* Running data scraper... *)
| ScraperCompleted                (* Data scraper completed successfully! *)
| Captured (text : string)        (* result.stdout, or result.stderr *)
| ScraperFailed                   (* Data scraper failed: *)
| ScraperError (e : exn)          (* Error running data scraper: {e} *)
| SetupCompleted                  (* Setup completed successfully! *)
| DashboardHint                   (* You can now run the dashboard with: ... *)
| SetupFailed.                    (* Setup failed. Please check the error messages above. *)

(** What [subprocess.run(..., capture_output=True, text=True)] returns. *)
Record completed := mkCompleted {
  returncode : Z;
  captured_stdout : string;
  captured_stderr : string
}.

(** What the script reads: whether a path exists, whether
    [mysql.connector.connect] succeeds, and what running a Python script as
    a subprocess gives. *)
Record Env := mkEnv {
  path_exists : string -> bool;
  connect : result unit;
  subprocess_run : string -> result completed
}.

(** The lines printed so far and the scripts handed to [subprocess.run]. *)
Record State := mkState {
  printed : list line;
  launched : list string
}.

Definition M (A : Type) : Type := State -> result A * State.

Definition ret {A} (a : A) : M A := fun s => (Ok a, s).

Definition bind {A B} (c : M A) (k : A -> M B) : M B :=
  fun s => match c s with
           | (Ok a, s') => k a s'
           | (Raise e, s') => (Raise e, s')
           end.

Definition lift {A} (r : result A) : M A := fun s => (r, s).

(** [try: body  except Exception as e: handler(e)] *)
Definition try_except {A} (body : M A) (handler : exn -> M A) : M A :=
  fun s => match body s with
           | (Ok a, s') => (Ok a, s')
           | (Raise e, s') => handler e s'
           end.

Declare Scope setup_scope.
Delimit Scope setup_scope with setup.
Notation "x <- c ;; k" := (bind c (fun x => k))
  (at level 61, c at next level, right associativity) : setup_scope.
Notation "c ;;; k" := (bind c (fun _ => k))
  (at level 61, right associativity) : setup_scope.
Local Open Scope setup_scope.

Definition print (l : line) : M unit :=
  fun s => (Ok tt, mkState (printed s ++ [l]) (launched s)).

Definition run (env : Env) (script : string) : M completed :=
  fun s => (subprocess_run env script,
            mkState (printed s) (launched s ++ [script])).

Section WithEnv.
Variable env : Env.

Definition check_mysql_connection : M bool :=
  try_except
    (lift (connect env) ;;;
     (* connection.close() *)
     print ConnectionOk ;;;
     ret true)
    (fun e =>
       print (ConnectionFailed e) ;;;
       print ConnectionHint ;;;
       ret false).

Definition run_data_scraper : M bool :=
  try_except
    (print RunningScraper ;;;
     result <- run env "data_scraper.py" ;;
     if returncode result =? 0 then
       print ScraperCompleted ;;;
       print (Captured (captured_stdout result)) ;;;
       ret true
     else
       print ScraperFailed ;;;
       print (Captured (captured_stderr result)) ;;;
       ret false)
    (fun e =>
       print (ScraperError e) ;;;
       ret false).

Definition main : M unit :=
  print Title ;;;
  print Rule ;;;
  if negb (path_exists env "data_scraper.py") then
    print ScraperMissing
  else
    connected <- check_mysql_connection ;;
    if negb connected then
      print PleaseStart
    else
      print SettingUp ;;;
      done <- run_data_scraper ;;
      if done then
        print SetupCompleted ;;;
        print DashboardHint
      else
        print SetupFailed.

End WithEnv.
End Setup.

(* ===================================================================== *)
(** * The script block of [data_scraper.py] *)
(* ===================================================================== *)

Module Script.
Import Pandas Store Scraper.

(** What the CSV imports read and write through: [pd.read_csv(path)], and
    the effect of [df.to_sql(name, engine, if_exists='append', index=False)]
    on the relations of a database that exists (the table it creates or
    extends is pandas' business). *)
Record Files := mkFiles {
  read_csv : string -> result (DataFrame value);
  to_sql : string -> DataFrame value -> database -> result database
}.

(** The imports reported so far (path, relation, number of rows), beside
    the state of the scraper. *)
Record State := mkState {
  imported : list (string * string * nat);
  scraper : Scraper.State
}.

Definition M (A : Type) : Type := State -> result A * State.

(** The engine of [get_engine] connects to the database [esports_data]
    itself, when it is first used: without that database the connection
    fails. *)
Definition import_csv_to_db (files : Files) (csv_path table_name : string)
  : M unit :=
  fun s =>
    match read_csv files csv_path with
    | Raise e => (Raise e, s)
    | Ok df =>
        match server (scraper s) with
        | None => (Raise (DatabaseError "Unknown database"), s)
        | Some db =>
            match to_sql files table_name df db with
            | Raise e => (Raise e, s)
            | Ok db' =>
                (Ok tt,
                 mkState (imported s ++
                            [(csv_path, table_name, List.length (rows df))])
                         (Scraper.mkState (stdout (scraper s)) (Some db')
                            (opened (scraper s)) (closed (scraper s))))
            end
        end
    end.

Definition bind {A B} (c : M A) (k : A -> M B) : M B :=
  fun s => match c s with
           | (Ok a, s') => k a s'
           | (Raise e, s') => (Raise e, s')
           end.

(** [main()] inside the script *)
Definition call_main (w : World) : M unit :=
  fun s => match Scraper.main w (scraper s) with
           | (r, s') => (r, mkState (imported s) s')
           end.

(** The block under [if __name__ == "__main__":] *)
Definition script (files : Files) (w : World) : M unit :=
  bind (import_csv_to_db files "VideoGames.csv" "VideoGames") (fun _ =>
  bind (import_csv_to_db files "Steam.csv" "SteamData") (fun _ =>
  bind (import_csv_to_db files "Gaming_trends.csv" "GamingTrends") (fun _ =>
  call_main w))).

End Script.

(* ===================================================================== *)
(** * Notions used to state further properties *)
(* ===================================================================== *)

Module Notions.
Import Text Num Pandas Store Scraper.

(** [SELECT cols FROM t]: the values of the listed columns of one stored
    row, [None] when a column is not declared. *)
Definition project (defs : list column_def) (cols : list string)
    (row : list value) : option (list value) :=
  match mapR (fun c => match index_of c (map c_name defs) with
                       | Some i => Ok (nth i row VNone)
                       | None => Raise (KeyError c)
                       end) cols with
  | Ok vs => Some vs
  | Raise _ => None
  end.

(** A value that is not a missing float. *)
Definition not_nan (v : value) : bool :=
  match v with
  | VFloat f => negb (is_nan f)
  | _ => true
  end.

(** [grows db db']: every relation of [db] is still there in [db'], with
    the columns it had, and its rows are the first rows of the relation in
    [db']. *)
Definition grows (db db' : database) : Prop :=
  forall name t,
    lookup name db = Some t ->
    exists t' more,
      lookup name db' = Some t' /\
      t_columns t' = t_columns t /\
      t_rows t' = (t_rows t ++ more)%list.

(** The relations of the server, none when the database does not exist. *)
Definition relations (s : State) : database :=
  match server s with
  | Some db => db
  | None => []
  end.

(** [step k s s']: from [s] to [s'] the database exists, the store has
    only grown, and at most [k] connections were opened, each of them
    closed again. *)
Definition step (k : nat) (s s' : State) : Prop :=
  exists db db' j,
    server s = Some db /\ server s' = Some db' /\ grows db db' /\
    (j <= k)%nat /\
    opened s' = (opened s + j)%nat /\ closed s' = (closed s + j)%nat.

(** A computation that makes such a step from every state with a
    database, whether it returns or raises. *)
Definition keeps (k : nat) (c : M unit) : Prop :=
  forall s db, server s = Some db -> step k s (snd (c s)).

(** [shape labels n d]: the frame [d] has the header [labels], every
    record of it has one field per label, no two records of it are equal,
    and it has at most [n] records. *)
Definition shape (labels : list string) (n : nat) (d : DataFrame value) : Prop :=
  columns d = labels /\
  Forall (fun r => List.length r = List.length labels) (rows d) /\
  distinct row_eqb (rows d) /\
  (List.length (rows d) <= n)%nat.

End Notions.

(* ===================================================================== *)
(** * Properties *)
(* ===================================================================== *)

Import Text Num Pandas Store Scraper.
Local Open Scope list_scope.

(** ** Deduplication *)

Section KeepFirst.
Context {A : Type} (eqb : A -> A -> bool).
Hypothesis eqb_refl : forall x, eqb x x = true.
Hypothesis eqb_sym : forall x y, eqb x y = eqb y x.
Hypothesis eqb_trans :
  forall x y z, eqb x y = true -> eqb y z = true -> eqb x z = true.

Local Abbreviation distinct := (distinct eqb).
Local Abbreviation covered := (covered eqb).

Lemma existsb_eqb_trans x y l :
  eqb x y = true -> existsb (eqb y) l = true -> existsb (eqb x) l = true.
Proof.
  intros Hxy H. apply existsb_exists in H as [z [Hz Hyz]].
  apply existsb_exists. exists z. split; [assumption|]. now apply eqb_trans with y.
Qed.

Lemma keep_first_not_seen seen earlier l :
  (forall x, existsb (eqb x) seen = existsb (eqb x) earlier) ->
  keep_first eqb seen l = not_seen_earlier eqb earlier l.
Proof.
  revert seen earlier. induction l as [|r t IH]; intros seen earlier Hse; simpl.
  - reflexivity.
  - rewrite <- Hse. destruct (existsb (eqb r) seen) eqn:Hr.
    + apply IH. intros x. rewrite existsb_app, <- Hse. simpl.
      rewrite orb_false_r.
      destruct (eqb x r) eqn:Hxr; [|now rewrite orb_false_r].
      rewrite orb_true_r. now apply existsb_eqb_trans with r.
    + f_equal. apply IH. intros x. rewrite existsb_app, <- Hse. simpl.
      rewrite orb_false_r. apply orb_comm.
Qed.

Lemma keep_first_In seen l x : In x (keep_first eqb seen l) -> In x l.
Proof.
  revert seen. induction l as [|r t IH]; intros seen; simpl; [tauto|].
  destruct (existsb (eqb r) seen).
  - intros H. right. now apply IH with seen.
  - intros [H|H]; [now left|]. right. now apply IH with (r :: seen).
Qed.

Lemma keep_first_fresh seen l x :
  In x (keep_first eqb seen l) -> existsb (eqb x) seen = false.
Proof.
  revert seen. induction l as [|r t IH]; intros seen; simpl; [tauto|].
  destruct (existsb (eqb r) seen) eqn:Hr.
  - apply IH.
  - intros [H|H]; [now subst|].
    apply IH in H. simpl in H. now apply orb_false_elim in H.
Qed.

Lemma keep_first_distinct seen l : distinct (keep_first eqb seen l).
Proof.
  revert seen. induction l as [|r t IH]; intros seen; simpl.
  - constructor.
  - destruct (existsb (eqb r) seen); [apply IH|].
    constructor; [|apply IH].
    apply Forall_forall. intros y Hy. apply keep_first_fresh in Hy.
    simpl in Hy. apply orb_false_elim in Hy as [Hy _]. now rewrite eqb_sym.
Qed.

Lemma keep_first_covers seen l x :
  In x l -> existsb (eqb x) (seen ++ keep_first eqb seen l) = true.
Proof.
  revert seen. induction l as [|r t IH]; intros seen; simpl; [tauto|].
  intros [H|H].
  - subst r. destruct (existsb (eqb x) seen) eqn:Hx.
    + rewrite existsb_app, Hx. reflexivity.
    + rewrite existsb_app. simpl. rewrite eqb_refl. now rewrite orb_true_r.
  - destruct (existsb (eqb r) seen) eqn:Hr; [now apply IH|].
    specialize (IH (r :: seen) H). rewrite existsb_app in *. simpl in *.
    rewrite (orb_comm (eqb x r)), <- orb_assoc in IH. exact IH.
Qed.

(** A list without equal entries, none of which was seen, is kept whole. *)
Lemma keep_first_fixed seen l :
  distinct l -> (forall x, In x l -> existsb (eqb x) seen = false) ->
  keep_first eqb seen l = l.
Proof.
  revert seen. induction l as [|r t IH]; intros seen Hd Hs; simpl; [reflexivity|].
  rewrite (Hs r (or_introl eq_refl)). f_equal.
  inversion Hd as [|? ? Hr Ht]; subst. apply IH; [assumption|].
  intros x Hx. simpl. rewrite (Hs x (or_intror Hx)), orb_false_r.
  rewrite eqb_sym. rewrite Forall_forall in Hr. now apply Hr.
Qed.

Lemma keep_first_idempotent l :
  keep_first eqb [] (keep_first eqb [] l) = keep_first eqb [] l.
Proof.
  apply keep_first_fixed; [apply keep_first_distinct|reflexivity].
Qed.

Lemma filter_length_lt (p : A -> bool) (l : list A) y :
  In y l -> p y = false -> (List.length (filter p l) < List.length l)%nat.
Proof.
  induction l as [|z t IH]; simpl; [tauto|].
  intros [H|H] Hp.
  - subst z. rewrite Hp. pose proof (filter_length_le p t). lia.
  - specialize (IH H Hp). destruct (p z); simpl; lia.
Qed.

(** A list without equal entries is no longer than a list that covers it. *)
Lemma distinct_covered_length u v :
  distinct u -> covered u v -> (List.length u <= List.length v)%nat.
Proof.
  revert v. induction u as [|x u' IH]; intros v Hd Hc; simpl; [lia|].
  inversion Hd as [|? ? Hx Hu']; subst.
  pose proof (Hc x (or_introl eq_refl)) as Hxv.
  apply existsb_exists in Hxv as [y [Hy Hxy]].
  pose proof (filter_length_lt (fun z => negb (eqb x z)) v y Hy) as Hlt.
  cbv beta in Hlt. rewrite Hxy in Hlt. specialize (Hlt eq_refl).
  enough (List.length u' <= List.length (filter (fun z => negb (eqb x z)) v))%nat by lia.
  apply IH; [assumption|].
  intros x' Hx'. pose proof (Hc x' (or_intror Hx')) as H.
  apply existsb_exists in H as [z [Hz Hx'z]].
  apply existsb_exists. exists z. split; [|assumption].
  apply filter_In. split; [assumption|].
  destruct (eqb x z) eqn:Hxz; [|reflexivity].
  rewrite Forall_forall in Hx. specialize (Hx x' Hx').
  rewrite (eqb_trans x z x') in Hx; [discriminate|assumption|].
  now rewrite eqb_sym.
Qed.

Lemma keep_first_length l u :
  distinct u -> covered u l -> covered l u ->
  List.length (keep_first eqb [] l) = List.length u.
Proof.
  intros Hd Hul Hlu. apply Nat.le_antisymm.
  - apply distinct_covered_length; [apply keep_first_distinct|].
    intros x Hx. apply Hlu. now apply keep_first_In with [].
  - apply distinct_covered_length; [assumption|].
    intros x Hx. specialize (Hul x Hx).
    apply existsb_exists in Hul as [y [Hy Hxy]].
    apply existsb_eqb_trans with y; [assumption|].
    now apply (keep_first_covers [] l y).
Qed.

End KeepFirst.

(** Equality of cleaned rows, as deduplication sees it, is an equivalence. *)

Lemma float_eqb_refl f : float_eqb f f = true.
Proof.
  destruct f as [s|s| |s m e]; simpl; try reflexivity.
  - apply eqb_reflx.
  - now rewrite eqb_reflx, Pos.eqb_refl, Z.eqb_refl.
Qed.

Lemma float_eqb_sym f g : float_eqb f g = float_eqb g f.
Proof.
  destruct f as [s|s| |s m e], g as [t|t| |t n k]; simpl; try reflexivity.
  - destruct s, t; reflexivity.
  - now rewrite (Pos.eqb_sym m n), (Z.eqb_sym e k); destruct s, t.
Qed.

Lemma float_eqb_trans f g h :
  float_eqb f g = true -> float_eqb g h = true -> float_eqb f h = true.
Proof.
  destruct f as [s|s| |s m e], g as [t|t| |t n k], h as [u|u| |u o j];
    simpl; try congruence.
  - intros H1 H2. apply eqb_prop in H1, H2. subst. apply eqb_reflx.
  - intros H1 H2.
    apply andb_prop in H1 as [H1 He]. apply andb_prop in H1 as [Hs Hm].
    apply andb_prop in H2 as [H2 He']. apply andb_prop in H2 as [Hs' Hm'].
    apply eqb_prop in Hs, Hs'. apply Pos.eqb_eq in Hm, Hm'.
    apply Z.eqb_eq in He, He'. subst.
    now rewrite eqb_reflx, Pos.eqb_refl, Z.eqb_refl.
Qed.

Lemma value_eqb_refl v : value_eqb v v = true.
Proof.
  destruct v; simpl; auto using String.eqb_refl, Z.eqb_refl, float_eqb_refl.
Qed.

Lemma value_eqb_sym v u : value_eqb v u = value_eqb u v.
Proof.
  destruct v, u; simpl;
    auto using String.eqb_sym, Z.eqb_sym, float_eqb_sym.
Qed.

Lemma value_eqb_trans v u t :
  value_eqb v u = true -> value_eqb u t = true -> value_eqb v t = true.
Proof.
  destruct v, u, t; simpl; try congruence.
  - intros H1 H2. apply String.eqb_eq in H1, H2. subst. apply String.eqb_refl.
  - intros H1 H2. apply Z.eqb_eq in H1, H2. subst. apply Z.eqb_refl.
  - apply float_eqb_trans.
Qed.

Lemma row_eqb_refl r : row_eqb r r = true.
Proof.
  induction r as [|v r IH]; simpl; [reflexivity|].
  now rewrite value_eqb_refl.
Qed.

Lemma row_eqb_sym r q : row_eqb r q = row_eqb q r.
Proof.
  revert q. induction r as [|v r IH]; intros [|u q]; simpl; try reflexivity.
  now rewrite value_eqb_sym, IH.
Qed.

Lemma row_eqb_trans r q p :
  row_eqb r q = true -> row_eqb q p = true -> row_eqb r p = true.
Proof.
  revert q p. induction r as [|v r IH]; intros [|u q] [|t p]; simpl;
    try congruence.
  intros H1 H2. apply andb_prop in H1 as [Hv Hr]. apply andb_prop in H2 as [Hu Hq].
  rewrite (value_eqb_trans _ _ _ Hv Hu). simpl. now apply IH with q.
Qed.



(** ** The bulk loader without data *)

(** C10.  Called with no frame ([None]) or with an empty one, the loader
    prints the line "No data for table" and returns normally; it opens no
    connection and leaves the store as it was. *)
Theorem insert_into_mysql_no_data (df : option (DataFrame value))
    (table : string) (cols : list string) (s : State)
    (Hnodata : match df with None => True | Some d => empty d = true end) :
  insert_into_mysql df table cols s =
  (Ok tt, mkState (stdout s ++ [NoDataForTable table]) (server s)
                  (opened s) (closed s)).
Proof.
  destruct df as [d|]; simpl.
  - rewrite Hnodata. reflexivity.
  - reflexivity.
Qed.

Lemma insert_into_mysql_no_data_witness :
  insert_into_mysql (Some (mkFrame ["team_name"; "revenue"] [])) "teams"
    ["team_name"; "revenue"] fresh =
  (Ok tt, mkState [NoDataForTable "teams"] None 0 0) /\
  insert_into_mysql None "teams" ["team_name"; "revenue"] fresh =
  (Ok tt, mkState [NoDataForTable "teams"] None 0 0).
Proof.
  split.
  - apply (insert_into_mysql_no_data (Some (mkFrame ["team_name"; "revenue"] []))
             "teams" ["team_name"; "revenue"] fresh).
    reflexivity.
  - apply (insert_into_mysql_no_data None "teams" ["team_name"; "revenue"] fresh).
    exact I.
Defined.

(** ** The schema initializer *)

Lemma lookup_app_one n name t db :
  lookup n (db ++ [(name, t)]) =
  match lookup n db with
  | Some x => Some x
  | None => if String.eqb name n then Some t else None
  end.
Proof.
  induction db as [|[m u] db IH]; simpl.
  - reflexivity.
  - destruct (String.eqb m n); [reflexivity|apply IH].
Qed.

Lemma lookup_create n name defs db :
  lookup n (create_table_if_not_exists name defs db) =
  match lookup n db with
  | Some x => Some x
  | None => if String.eqb name n then Some (mkTable defs [] 1) else None
  end.
Proof.
  unfold create_table_if_not_exists.
  destruct (lookup name db) as [t|] eqn:Hl.
  - destruct (lookup n db) eqn:Hn; [reflexivity|].
    destruct (String.eqb name n) eqn:He; [|reflexivity].
    apply String.eqb_eq in He. congruence.
  - apply lookup_app_one.
Qed.

Lemma create_existing name defs db t :
  lookup name db = Some t -> create_table_if_not_exists name defs db = db.
Proof. unfold create_table_if_not_exists. now intros ->. Qed.

Lemma init_database_run s :
  init_database s =
  (Ok tt, mkState (stdout s)
                  (Some (initialized (match server s with
                                      | Some db => db
                                      | None => []
                                      end)))
                  (S (opened s)) (S (closed s))).
Proof. destruct s as [out [db|] o c]; reflexivity. Qed.

Lemma lookup_initialized_existing db name t :
  lookup name db = Some t -> lookup name (initialized db) = Some t.
Proof.
  intros H. unfold initialized, tables. cbn [fold_left fst snd].
  repeat rewrite lookup_create. now rewrite H.
Qed.

Lemma lookup_initialized_new db key name defs :
  In (key, (name, defs)) tables -> lookup name db = None ->
  lookup name (initialized db) = Some (mkTable defs [] 1).
Proof.
  intros Hin H. unfold initialized. unfold tables at 1.
  cbn [fold_left fst snd]. repeat rewrite lookup_create.
  unfold tables in Hin. cbn [In] in Hin.
  destruct Hin as [E|[E|[E|[E|[]]]]]; inversion E; subst; clear E;
    rewrite H; reflexivity.
Qed.

Lemma initialized_twice db : initialized (initialized db) = initialized db.
Proof.
  assert (Hex : forall key name defs, In (key, (name, defs)) tables ->
                exists t, lookup name (initialized db) = Some t).
  { intros key name defs Hin.
    destruct (lookup name db) as [t|] eqn:Hl.
    - exists t. now apply lookup_initialized_existing.
    - eexists. apply lookup_initialized_new with key; eassumption. }
  unfold initialized at 1. unfold tables in *. cbn [fold_left fst snd].
  destruct (Hex _ _ _ (or_introl eq_refl)) as [t1 H1].
  destruct (Hex _ _ _ (or_intror (or_introl eq_refl))) as [t2 H2].
  destruct (Hex _ _ _ (or_intror (or_intror (or_introl eq_refl)))) as [t3 H3].
  destruct (Hex _ _ _ (or_intror (or_intror (or_intror (or_introl eq_refl))))) as [t4 H4].
  rewrite (create_existing _ _ _ _ H1), (create_existing _ _ _ _ H2),
    (create_existing _ _ _ _ H3), (create_existing _ _ _ _ H4).
  reflexivity.
Qed.

(** C5, as the code has it.  From any state of the store [init_database]
    returns normally.  A relation that exists already keeps its columns and
    its rows.  A relation of the dictionary [tables] that does not exist yet
    is created empty, with its counter at 1, exactly one key column (an
    auto-incrementing integer, [rank] for players and [id] for the others)
    and the declared fields, which for countries, players and teams are the
    fields the loader fills and for tournaments are tournament_name,
    prize_pool, game, participate_team and no_of_player.  A second call
    returns normally too and leaves the store as the first call left it. *)
Theorem init_database_relations (s : State) :
  let db := match server s with Some db => db | None => [] end in
  let s' := mkState (stdout s) (Some (initialized db))
                    (S (opened s)) (S (closed s)) in
  init_database s = (Ok tt, s') /\
  (forall name t, lookup name db = Some t ->
                  lookup name (initialized db) = Some t) /\
  (forall key name defs,
      In (key, (name, defs)) tables -> lookup name db = None ->
      lookup name (initialized db) = Some (mkTable defs [] 1)) /\
  map (fun e => (fst (snd e),
                 map c_name (keys (mkTable (snd (snd e)) [] 1)),
                 fields (mkTable (snd (snd e)) [] 1))) tables =
  [ ("countries", ["id"],
     ["name"; "total_earnings"; "num_players"; "top_game"; "game_earnings";
      "game_percent"]);
    ("players", ["rank"],
     ["player_id"; "player_name"; "total_earnings"; "main_game";
      "earnings_percent"]);
    ("tournaments", ["id"],
     ["tournament_name"; "prize_pool"; "game"; "participate_team";
      "no_of_player"]);
    ("teams", ["id"], ["team_name"; "revenue"; "tournaments_played"]) ] /\
  init_database s' =
  (Ok tt, mkState (stdout s) (Some (initialized db))
                  (S (S (opened s))) (S (S (closed s)))).
Proof.
  intros db s'. split; [apply init_database_run|].
  split; [apply lookup_initialized_existing|].
  split; [apply lookup_initialized_new|].
  split; [reflexivity|].
  rewrite init_database_run. unfold s'. simpl.
  now rewrite initialized_twice.
Qed.

(** C5 as stated fails: on a server without the database, the relation
    [tournaments] that [init_database] creates has five fields besides its
    key, not the three of the canonical list. *)
Lemma init_database_tournaments_fields :
  exists s' t,
    init_database fresh = (Ok tt, s') /\
    option_map (lookup "tournaments") (server s') = Some (Some t) /\
    fields t = ["tournament_name"; "prize_pool"; "game"; "participate_team";
                "no_of_player"] /\
    fields t <> ["tournament_name"; "prize_pool"; "game"].
Proof.
  eexists. eexists. split; [reflexivity|]. split; [reflexivity|].
  split; [reflexivity|]. discriminate.
Qed.

(** ** The multi-page aggregator *)

Lemma printed_nil s : printed s [] = s.
Proof. destruct s. unfold printed. simpl. now rewrite app_nil_r. Qed.

Lemma printed_printed s a b : printed (printed s a) b = printed s (a ++ b).
Proof. unfold printed. simpl. now rewrite app_assoc. Qed.

Lemma fetch_html_table_run w url s :
  fetch_html_table w url s =
  (Ok (page_of w url),
   printed s (match read_html w url with
              | Ok _ => []
              | Raise e => [ErrorFetching url e]
              end)).
Proof.
  unfold fetch_html_table, page_of.
  destruct (read_html w url) as [ts|e].
  - now rewrite printed_nil.
  - reflexivity.
Qed.

Lemma fetch_all_run w urls s :
  fetch_all w urls s = (Ok (map (page_of w) urls), printed s (error_lines w urls)).
Proof.
  revert s. induction urls as [|url rest IH]; intros s; simpl.
  - now rewrite printed_nil.
  - unfold Scraper.bind. rewrite fetch_html_table_run, IH.
    unfold error_lines. simpl. now rewrite printed_printed.
Qed.

Lemma labels_eqb_refl l : labels_eqb l l = true.
Proof.
  induction l as [|x l IH]; simpl; [reflexivity|].
  now rewrite String.eqb_refl.
Qed.

Lemma labels_eqb_eq a b : labels_eqb a b = true -> a = b.
Proof.
  revert b. induction a as [|x a IH]; intros [|y b]; simpl; try congruence.
  intros H. apply andb_prop in H as [Hx Ha].
  apply String.eqb_eq in Hx. f_equal; auto.
Qed.

Lemma pd_concat_same_header labels f frames :
  Forall (fun g => columns g = labels) (f :: frames) ->
  pd_concat (f :: frames) = Ok (mkFrame labels (flat_map rows (f :: frames))).
Proof.
  intros H. inversion H as [|? ? Hf Hrest]; subst.
  unfold pd_concat.
  replace (same_columns (f :: frames)) with true; [reflexivity|].
  symmetry. simpl. apply forallb_forall. intros g Hg.
  rewrite Forall_forall in Hrest. rewrite (Hrest g Hg). apply labels_eqb_refl.
Qed.

Lemma fetch_multiple_tables_run w urls s :
  fetch_multiple_tables w urls s =
  match somes (map (page_of w) urls) with
  | [] => (Ok None, printed s (error_lines w urls))
  | frames => match pd_concat frames with
              | Ok df => (Ok (Some df), printed s (error_lines w urls))
              | Raise e => (Raise e, printed s (error_lines w urls))
              end
  end.
Proof.
  unfold fetch_multiple_tables, Scraper.bind. rewrite fetch_all_run.
  destruct (somes (map (page_of w) urls)) as [|f t]; [reflexivity|].
  unfold lift. destruct (pd_concat (f :: t)); reflexivity.
Qed.

Lemma pd_concat_single (f : DataFrame cell) : pd_concat [f] = Ok f.
Proof.
  destruct f as [labels rs]. unfold pd_concat. simpl. now rewrite app_nil_r.
Qed.

(** C3, as the code has it.  Over any ordered list of page locators the
    aggregator prints one error line per page whose fetch raises and changes
    nothing else.  When no page delivers a table the result is [None].  When
    the delivered tables share one header, the result has that header and
    exactly the rows of those tables, in locator order and then in page
    order.  When the headers differ (and no table repeats a label), the
    result has the union of the labels and every row is aligned to it. *)
Theorem fetch_multiple_tables_rows (w : World) (urls : list string) (s : State) :
  let frames := somes (map (page_of w) urls) in
  let s' := printed s (error_lines w urls) in
  (frames = [] -> fetch_multiple_tables w urls s = (Ok None, s')) /\
  (forall labels,
      frames <> [] -> Forall (fun f => columns f = labels) frames ->
      fetch_multiple_tables w urls s =
      (Ok (Some (mkFrame labels (flat_map rows frames))), s')) /\
  (frames <> [] -> same_columns frames = false ->
   forallb (fun f => unique (columns f)) frames = true ->
   fetch_multiple_tables w urls s =
   (Ok (Some (mkFrame (union_columns frames)
                      (flat_map (reindex (union_columns frames)) frames))), s')).
Proof.
  intros frames s'. rewrite fetch_multiple_tables_run. fold frames. fold s'.
  split; [|split].
  - intros ->. reflexivity.
  - intros labels Hne Hall. destruct frames as [|f t]; [congruence|].
    now rewrite (pd_concat_same_header labels).
  - intros Hne Hdiff Huniq. destruct frames as [|f t]; [congruence|].
    unfold pd_concat. now rewrite Hdiff, Huniq.
Qed.

(** C3 as stated fails in two places.  When every page fails the result is
    [None], not an empty table; and two pages whose headers differ do not
    contribute their rows as they are: each row is widened to the union of
    the labels with missing cells. *)
Lemma fetch_multiple_tables_none_or_widened :
  fetch_multiple_tables (world_of []) ["p1"; "p2"] fresh =
    (Ok None,
     mkState [ErrorFetching "p1" (IOError "HTTP Error 404: Not Found");
              ErrorFetching "p2" (IOError "HTTP Error 404: Not Found")]
             None 0 0) /\
  fetch_multiple_tables
    (world_of [("p1", mkFrame ["Team"] [[CText "TeamA"]]);
               ("p2", mkFrame ["Name"] [[CText "TeamB"]])])
    ["p1"; "p2"] fresh =
    (Ok (Some (mkFrame ["Team"; "Name"]
                 [[CText "TeamA"; CMissing]; [CMissing; CText "TeamB"]])),
     fresh).
Proof. split; reflexivity. Qed.


(** ** Binary64 numbers: integers below 2^53 are exact *)

Lemma digits2_pos_bounds p :
  2 ^ (Zpos (digits2_pos p) - 1) <= Zpos p < 2 ^ Zpos (digits2_pos p).
Proof.
  induction p as [p IH|p IH|]; simpl digits2_pos.
  - rewrite Pos2Z.inj_succ. replace (Z.succ (Zpos (digits2_pos p)) - 1) with (Zpos (digits2_pos p)) by lia.
    rewrite Z.pow_succ_r by lia.
    assert (2 ^ Zpos (digits2_pos p) = 2 * 2 ^ (Zpos (digits2_pos p) - 1)).
    { rewrite <- Z.pow_succ_r by lia. f_equal. lia. }
    lia.
  - rewrite Pos2Z.inj_succ. replace (Z.succ (Zpos (digits2_pos p)) - 1) with (Zpos (digits2_pos p)) by lia.
    rewrite Z.pow_succ_r by lia.
    assert (2 ^ Zpos (digits2_pos p) = 2 * 2 ^ (Zpos (digits2_pos p) - 1)).
    { rewrite <- Z.pow_succ_r by lia. f_equal. lia. }
    lia.
  - simpl. lia.
Qed.

Lemma digits2_pos_le p n : 0 <= n -> Zpos p < 2 ^ n -> Zpos (digits2_pos p) <= n.
Proof.
  intros Hn Hp. destruct (Z_le_gt_dec (Zpos (digits2_pos p)) n) as [H|H]; [assumption|].
  exfalso. pose proof (digits2_pos_bounds p) as [Hlo _].
  assert (2 ^ n <= 2 ^ (Zpos (digits2_pos p) - 1)) by (apply Z.pow_le_mono_r; lia).
  lia.
Qed.

Lemma iter_xO_value p k : Zpos (Pos.iter xO p k) = Zpos p * 2 ^ Zpos k.
Proof.
  revert p. induction k using Pos.peano_ind; intros p.
  - simpl. lia.
  - rewrite Pos.iter_succ. rewrite Pos2Z.inj_xO, IHk, Pos2Z.inj_succ, Z.pow_succ_r by lia. lia.
Qed.

Lemma iter_xO_digits p k : digits2_pos (Pos.iter xO p k) = (digits2_pos p + k)%positive.
Proof.
  induction k using Pos.peano_ind.
  - simpl. lia.
  - rewrite Pos.iter_succ. simpl. rewrite IHk. lia.
Qed.

Lemma binary_round_aux_exact m e :
  Zpos (digits2_pos m) = 53 -> -1074 <= e <= 971 ->
  binary_round_aux prec emax false (Zpos m) e loc_Exact = S754_finite false m e.
Proof.
  intros Hd He.
  assert (Hshift : fexp prec emax (Zdigits2 (Zpos m) + e) - e = 0).
  { unfold fexp, emin, prec, emax, Zdigits2. rewrite Hd. lia. }
  unfold binary_round_aux, shr_fexp. rewrite Hshift.
  cbn [shr shr_record_of_loc shr_m loc_of_shr_record round_nearest_even].
  rewrite Hshift. cbn [shr shr_m].
  replace (e <=? emax - prec) with true; [reflexivity|].
  symmetry. apply Z.leb_le. unfold emax, prec. lia.
Qed.

Lemma float_of_Z_small p :
  Zpos p < 2 ^ 53 ->
  exists m e, float_of_Z (Zpos p) = S754_finite false m e /\
              e <= 0 /\ Zpos m = Zpos p * 2 ^ (- e).
Proof.
  intros Hp.
  pose proof (digits2_pos_le p 53 ltac:(lia) Hp) as Hd.
  unfold float_of_Z, binary_normalize, binary_round.
  assert (Hf : fexp prec emax (Zpos (digits2_pos p) + 0) = Zpos (digits2_pos p) - 53).
  { unfold fexp, emin, prec, emax. lia. }
  rewrite Hf. unfold shl_align. rewrite Z.sub_0_r.
  destruct (Zpos (digits2_pos p) - 53) as [|q|q] eqn:Hq; [| lia |].
  - exists p, 0. split; [|split]; [| lia | simpl; lia].
    apply binary_round_aux_exact; lia.
  - exists (Pos.iter xO p q), (Zneg q). split; [|split]; [| lia | apply iter_xO_value].
    apply binary_round_aux_exact; [rewrite iter_xO_digits|]; lia.
Qed.

Lemma trunc_float_of_Z z : 0 <= z < 2 ^ 53 -> trunc (float_of_Z z) = z.
Proof.
  intros [H0 H]. destruct z as [|p|p]; [reflexivity| |lia].
  destruct (float_of_Z_small p H) as (m & e & -> & He & Hm).
  unfold trunc, cond_Zopp. rewrite Z.shiftl_div_pow2 by assumption.
  rewrite Hm. apply Z.div_mul. apply Z.pow_nonzero; lia.
Qed.

Lemma float_to_int64_float_of_Z z :
  0 <= z < 2 ^ 53 -> float_to_int64 (float_of_Z z) = z.
Proof.
  intros H. unfold float_to_int64. rewrite trunc_float_of_Z by assumption.
  replace (in_int64 z) with true; [reflexivity|].
  symmetry. unfold in_int64, min_int64, max_int64.
  apply andb_true_intro. split; apply Z.leb_le; lia.
Qed.

Lemma float_of_Z_finite z : 0 <= z < 2 ^ 53 -> is_finite (float_of_Z z) = true.
Proof.
  intros [H0 H]. destruct z as [|p|p]; [reflexivity| |lia].
  now destruct (float_of_Z_small p H) as (m & e & -> & _).
Qed.

(** ** Text lemmas *)

Lemma rev_append_rev_append s a b :
  Text.rev_append (Text.rev_append s a) b = Text.rev_append a (s ++ b)%string.
Proof.
  revert a b. induction s as [|c s IH]; intros a b; simpl.
  - reflexivity.
  - rewrite IH. reflexivity.
Qed.

Lemma rev_involutive s : Text.rev (Text.rev s) = s.
Proof.
  unfold Text.rev. rewrite rev_append_rev_append. simpl.
  induction s as [|c s IH]; simpl; congruence.
Qed.

Lemma all_chars_rev_append p s a :
  all_chars p (Text.rev_append s a) = all_chars p s && all_chars p a.
Proof.
  revert a. induction s as [|c s IH]; intros a; simpl.
  - reflexivity.
  - rewrite IH. simpl.
    now destruct (p c), (all_chars p s), (all_chars p a).
Qed.

Lemma all_chars_app p a b :
  all_chars p (a ++ b)%string = all_chars p a && all_chars p b.
Proof.
  induction a as [|c a IH]; simpl; [reflexivity|].
  now rewrite IH, andb_assoc.
Qed.

Lemma all_chars_impl (p q : ascii -> bool) s :
  (forall c, p c = true -> q c = true) ->
  all_chars p s = true -> all_chars q s = true.
Proof.
  intros Hpq. induction s as [|c s IH]; simpl; [reflexivity|].
  intros H. apply andb_prop in H as [Hc Hs]. now rewrite (Hpq c Hc), IH.
Qed.

Lemma drop_while_none p s :
  all_chars (fun c => negb (p c)) s = true -> drop_while p s = s.
Proof.
  destruct s as [|c s]; simpl; [reflexivity|].
  intros H. apply andb_prop in H as [Hc _].
  apply negb_true_iff in Hc. now rewrite Hc.
Qed.

Lemma strip_none p s :
  all_chars (fun c => negb (p c)) s = true -> strip p s = s.
Proof.
  intros H. unfold strip. rewrite (drop_while_none p s H).
  rewrite drop_while_none; [apply rev_involutive|].
  unfold Text.rev. rewrite all_chars_rev_append, H. reflexivity.
Qed.

(** What a decimal digit is not. *)
Lemma digit_facts c :
  is_digit c = true ->
  is_space c = false /\ is_cspace c = false /\ is_currency_mark c = false /\
  Ascii.eqb c "_" = false /\ Ascii.eqb c "-" = false /\ Ascii.eqb c "+" = false /\
  Ascii.eqb c "." = false /\ Ascii.eqb c " " = false /\ Ascii.eqb c "," = false /\
  Ascii.eqb c "%" = false /\
  lower c = c /\ Ascii.eqb c "i" = false /\ Ascii.eqb c "n" = false /\
  0 <= digit_val c <= 9.
Proof.
  destruct c as [[] [] [] [] [] [] [] []]; cbv; intros H;
    try discriminate H; repeat split; try reflexivity; discriminate.
Qed.

Lemma digits_acc_nonneg s a :
  all_chars is_digit s = true -> 0 <= a -> 0 <= digits_acc a s.
Proof.
  revert a. induction s as [|c s IH]; intros a H Ha; cbn [digits_acc]; [assumption|].
  simpl in H. apply andb_prop in H as [Hc Hs].
  apply IH; [assumption|].
  destruct (digit_facts c Hc) as (_ & _ & _ & _ & _ & _ & _ & _ & _ & _ & _ & _ & _ & Hv). lia.
Qed.

Lemma span_digits s :
  all_chars is_digit s = true -> span is_digit s = (s, EmptyString).
Proof.
  induction s as [|c s IH]; simpl; [reflexivity|].
  intros H. apply andb_prop in H as [Hc Hs]. now rewrite Hc, IH.
Qed.

Lemma string_app_empty s : (s ++ "")%string = s.
Proof. induction s as [|c s IH]; simpl; congruence. Qed.

Lemma drop_underscores_digits prev s :
  all_chars is_digit s = true -> drop_underscores prev s = Some s.
Proof.
  revert prev. induction s as [|c s IH]; intros prev; simpl; [reflexivity|].
  intros H. apply andb_prop in H as [Hc Hs].
  destruct (digit_facts c Hc) as (_ & _ & _ & Hu & _). rewrite Hu.
  now rewrite IH.
Qed.

Lemma parse_sign_digit c s :
  is_digit c = true -> parse_sign (String c s) = (false, String c s).
Proof.
  intros Hc. destruct (digit_facts c Hc) as (_ & _ & _ & _ & Hm & Hp & _).
  unfold parse_sign.
  destruct c as [[] [] [] [] [] [] [] []]; try reflexivity; discriminate.
Qed.

Lemma parse_word_digit c s : is_digit c = true -> parse_word (String c s) = None.
Proof.
  intros Hc. unfold parse_word. rewrite (parse_sign_digit c s Hc).
  destruct (digit_facts c Hc) as (_ & _ & _ & _ & _ & _ & _ & _ & _ & _ & Hl & Hi & Hn & _).
  simpl. rewrite Hl, Hi, Hn. reflexivity.
Qed.

Lemma parse_decimal_digits neg c s :
  all_chars is_digit (String c s) = true ->
  parse_decimal neg (String c s) =
  Some (LNum neg (digits_value (String c s)) 0 true).
Proof.
  intros H. unfold parse_decimal. rewrite (span_digits _ H).
  rewrite string_app_empty. reflexivity.
Qed.

Lemma float_of_decimal_int m : 0 <= m -> float_of_decimal false m 0 = float_of_Z m.
Proof.
  intros Hm. destruct m as [|p|p]; [reflexivity| |lia].
  unfold float_of_decimal, float_of_Z. simpl Z.leb. cbv iota.
  unfold cond_Zopp. now rewrite Z.pow_0_r, Z.mul_1_r.
Qed.

Lemma digits_no (p : ascii -> bool) s :
  (forall c, is_digit c = true -> p c = false) ->
  all_chars is_digit s = true -> all_chars (fun c => negb (p c)) s = true.
Proof.
  intros Hp. apply all_chars_impl. intros c Hc. now rewrite (Hp c Hc).
Qed.

(** [float(s)] on a string of decimal digits *)
Lemma py_float_digits c s :
  all_chars is_digit (String c s) = true ->
  py_float (String c s) = Some (float_of_Z (digits_value (String c s))).
Proof.
  intros H. unfold py_float.
  rewrite strip_none by (apply digits_no; [apply digit_facts|assumption]).
  rewrite (drop_underscores_digits _ _ H).
  pose proof H as H'. simpl in H'. apply andb_prop in H' as [Hc _].
  rewrite (parse_word_digit c s Hc), (parse_sign_digit c s Hc).
  rewrite (parse_decimal_digits _ _ _ H). simpl option_map. f_equal.
  unfold float_of_literal. apply float_of_decimal_int.
  now apply digits_acc_nonneg.
Qed.

(** [pd.to_numeric] on a string of decimal digits *)
Lemma pd_parse_digits c s :
  all_chars is_digit (String c s) = true ->
  pd_parse (String c s) = Some (LNum false (digits_value (String c s)) 0 true).
Proof.
  intros H. unfold pd_parse.
  pose proof H as H'. simpl in H'. apply andb_prop in H' as [Hc _].
  rewrite (parse_word_digit c s Hc).
  rewrite strip_none by (apply digits_no; [apply digit_facts|assumption]).
  rewrite (parse_sign_digit c s Hc). now apply parse_decimal_digits.
Qed.

(** The canonical numeral *)

Lemma digit_val_char d : 0 <= d <= 9 -> digit_val (digit_char d) = d /\ is_digit (digit_char d) = true.
Proof.
  intros H.
  assert (E : d = 0 \/ d = 1 \/ d = 2 \/ d = 3 \/ d = 4 \/ d = 5 \/ d = 6 \/
              d = 7 \/ d = 8 \/ d = 9) by lia.
  repeat (destruct E as [E|E]; [subst d; split; reflexivity|]).
  subst d; split; reflexivity.
Qed.

Lemma decimal_fuel_spec fuel n acc :
  0 <= n < 10 * 2 ^ Z.of_nat fuel ->
  all_chars is_digit acc = true ->
  exists c s, decimal_fuel fuel n acc = String c s /\
              all_chars is_digit (String c s) = true /\
              digits_value (String c s) = digits_acc n acc.
Proof.
  revert n acc. induction fuel as [|f IH]; intros n acc Hn Hacc.
  - simpl in Hn. assert (Hd : 0 <= n mod 10 <= 9) by (pose proof (Z.mod_pos_bound n 10); lia).
    destruct (digit_val_char _ Hd) as [Hv Hi].
    exists (digit_char (n mod 10)), acc. simpl decimal_fuel. split; [reflexivity|].
    split; [simpl; now rewrite Hi|].
    unfold digits_value. cbn [digits_acc]. rewrite Hv. rewrite Z.mod_small by lia.
    f_equal; lia.
  - assert (Hd : 0 <= n mod 10 <= 9) by (pose proof (Z.mod_pos_bound n 10); lia).
    destruct (digit_val_char _ Hd) as [Hv Hi].
    cbn [decimal_fuel]. destruct (n <? 10) eqn:Hlt.
    + apply Z.ltb_lt in Hlt.
      exists (digit_char (n mod 10)), acc. split; [reflexivity|].
      split; [simpl; now rewrite Hi|].
      unfold digits_value. cbn [digits_acc]. rewrite Hv. rewrite Z.mod_small by lia.
    f_equal; lia.
    + apply Z.ltb_ge in Hlt.
      destruct (IH (n / 10) (String (digit_char (n mod 10)) acc)) as (c & s & E & Hall & Hval).
      * rewrite Nat2Z.inj_succ, Z.pow_succ_r in Hn by lia.
        split; [apply Z.div_pos; lia|].
        apply Z.div_lt_upper_bound; [lia|].
        assert (0 < 2 ^ Z.of_nat f) by (apply Z.pow_pos_nonneg; lia). lia.
      * simpl. now rewrite Hi.
      * exists c, s. split; [assumption|]. split; [assumption|].
        rewrite Hval. cbn [digits_acc]. rewrite Hv. f_equal.
        pose proof (Z.div_mod n 10). lia.
Qed.

Lemma decimal_spec n :
  0 <= n ->
  exists c s, decimal n = String c s /\
              all_chars is_digit (String c s) = true /\
              digits_value (String c s) = n.
Proof.
  intros Hn. unfold decimal.
  destruct (decimal_fuel_spec (Z.to_nat (Z.log2 n)) n EmptyString) as (c & s & E & Ha & Hv).
  - split; [assumption|]. rewrite Z2Nat.id by apply Z.log2_nonneg.
    destruct (Z.eq_dec n 0) as [->|Hz]; [simpl; lia|].
    pose proof (Z.log2_spec n ltac:(lia)) as [_ Hhi].
    rewrite Z.pow_succ_r in Hhi by apply Z.log2_nonneg.
    assert (0 < 2 ^ Z.log2 n) by (apply Z.pow_pos_nonneg; [lia|apply Z.log2_nonneg]). lia.
  - reflexivity.
  - exists c, s. auto.
Qed.

(** ** The currency rule *)

Lemma mapR_nth_error {A B} (f : A -> result B) l r i x :
  mapR f l = Ok r -> nth_error l i = Some x ->
  exists y, f x = Ok y /\ nth_error r i = Some y.
Proof.
  revert r i. induction l as [|a l IH]; intros r i H Hx.
  - destruct i; discriminate.
  - simpl in H. destruct (f a) as [b|e] eqn:Hfa; [|discriminate].
    destruct (mapR f l) as [bs|e] eqn:Hl; [|discriminate].
    inversion H; subst r. destruct i as [|i]; simpl in *.
    + inversion Hx; subst. eauto.
    + now apply IH.
Qed.

Lemma filter_chars_app p a b :
  filter_chars p (a ++ b)%string = (filter_chars p a ++ filter_chars p b)%string.
Proof.
  induction a as [|c a IH]; simpl; [reflexivity|].
  destruct (p c); simpl; now rewrite IH.
Qed.

Lemma filter_chars_all p s : all_chars p s = true -> filter_chars p s = s.
Proof.
  induction s as [|c s IH]; simpl; [reflexivity|].
  intros H. apply andb_prop in H as [Hc Hs]. now rewrite Hc, IH.
Qed.

Lemma digits_all s : digits s = true -> all_chars is_digit s = true.
Proof. destruct s; [discriminate|trivial]. Qed.

Lemma flat_digits gs :
  Forall (fun d => digits d = true) gs -> all_chars is_digit (flat gs) = true.
Proof.
  induction 1 as [|d t Hd _ IH]; simpl; [reflexivity|].
  now rewrite all_chars_app, (digits_all d Hd), IH.
Qed.

Lemma unmarked_digits s :
  all_chars is_digit s = true ->
  filter_chars (fun a => negb (is_currency_mark a)) s = s.
Proof.
  intros H. apply filter_chars_all. apply digits_no; [|assumption].
  intros c Hc. apply digit_facts in Hc. tauto.
Qed.

Lemma unmarked_comma_groups gs :
  Forall (fun d => digits d = true) gs ->
  filter_chars (fun a => negb (is_currency_mark a)) (comma_groups gs) = flat gs.
Proof.
  induction 1 as [|d t Hd _ IH]; [reflexivity|].
  cbn [comma_groups flat]. change ("," ++ d ++ comma_groups t)%string
    with (String "," (d ++ comma_groups t)).
  cbn [filter_chars]. change (is_currency_mark ",") with true. cbn [negb].
  now rewrite filter_chars_app, (unmarked_digits d (digits_all d Hd)), IH.
Qed.

(** Stripping the currency marks of ["$" g ("," d)*] leaves the digits. *)
Lemma unmarked_currency_text g gs :
  digits g = true -> Forall (fun d => digits d = true) gs ->
  exists c s,
    filter_chars (fun a => negb (is_currency_mark a)) (currency_text g gs) =
      String c s /\
    all_chars is_digit (String c s) = true /\
    digits_value (String c s) = currency_value g gs.
Proof.
  intros Hg Hgs. unfold currency_text, currency_value.
  change ("$" ++ g ++ comma_groups gs)%string
    with (String "$" (g ++ comma_groups gs)).
  cbn [filter_chars]. change (is_currency_mark "$") with true. cbn [negb].
  rewrite filter_chars_app, (unmarked_digits g (digits_all g Hg)),
    (unmarked_comma_groups gs Hgs).
  destruct g as [|c g]; [discriminate|]. simpl append.
  exists c, (g ++ flat gs)%string. split; [reflexivity|]. split; [|reflexivity].
  change (String c (g ++ flat gs)) with (String c g ++ flat gs)%string.
  now rewrite all_chars_app, (digits_all _ Hg), (flat_digits gs Hgs).
Qed.

Lemma currency_value_nonneg g gs :
  digits g = true -> Forall (fun d => digits d = true) gs ->
  0 <= currency_value g gs.
Proof.
  intros Hg Hgs. unfold currency_value, digits_value.
  apply digits_acc_nonneg; [|lia].
  now rewrite all_chars_app, (digits_all _ Hg), (flat_digits gs Hgs).
Qed.

(** [float] of the stripped text is the nearest binary64 number. *)
Lemma py_float_currency_text g gs :
  digits g = true -> Forall (fun d => digits d = true) gs ->
  py_float (filter_chars (fun a => negb (is_currency_mark a)) (currency_text g gs))
  = Some (float_of_Z (currency_value g gs)).
Proof.
  intros Hg Hgs.
  destruct (unmarked_currency_text g gs Hg Hgs) as (c & s & -> & Hall & Hval).
  now rewrite (py_float_digits c s Hall), Hval.
Qed.

Lemma astype_int_nth fs zs i f :
  astype_int fs = Ok zs -> nth_error fs i = Some f ->
  is_finite f = true /\ nth_error zs i = Some (float_to_int64 f).
Proof.
  unfold astype_int. destruct (forallb is_finite fs) eqn:Hfin; [|discriminate].
  intros H Hf. inversion H; subst zs. split.
  - rewrite forallb_forall in Hfin. apply Hfin. now apply nth_error_In with i.
  - now apply map_nth_error.
Qed.




(** ** The unit-suffixed count rule *)

Lemma prefix_other_head a pat c s :
  Ascii.eqb c a = false -> prefix (String a pat) (String c s) = false.
Proof.
  intros H. simpl. destruct (ascii_dec a c) as [E|_]; [|reflexivity].
  subst c. now rewrite Ascii.eqb_refl in H.
Qed.

Lemma remove_sub_absent a pat s :
  all_chars (fun c => negb (Ascii.eqb c a)) s = true ->
  remove_sub (String a pat) O s = s.
Proof.
  induction s as [|c s IH]; intros H; [reflexivity|].
  simpl in H. apply andb_prop in H as [Hc Hs]. apply negb_true_iff in Hc.
  cbn [remove_sub]. rewrite (prefix_other_head a pat c s Hc). now rewrite IH.
Qed.

Lemma remove_sub_after a pat s t :
  all_chars (fun c => negb (Ascii.eqb c a)) s = true ->
  remove_sub (String a pat) O (s ++ t)%string =
  (s ++ remove_sub (String a pat) O t)%string.
Proof.
  induction s as [|c s IH]; intros H; [reflexivity|].
  simpl in H. apply andb_prop in H as [Hc Hs]. apply negb_true_iff in Hc.
  cbn [append remove_sub]. rewrite (prefix_other_head a pat c _ Hc).
  now rewrite IH.
Qed.

Lemma count_text_tournaments n :
  0 <= n -> count_text (CText (tournaments_text n)) = decimal n.
Proof.
  intros Hn. destruct (decimal_spec n Hn) as (c & s & E & Hall & _).
  unfold count_text, tournaments_text, str_replace. rewrite E.
  rewrite remove_sub_after.
  - change (remove_sub " Tournaments" O " Tournaments") with EmptyString.
    rewrite string_app_empty. apply remove_sub_absent.
    apply digits_no; [|assumption]. intros d Hd. apply digit_facts in Hd. tauto.
  - apply digits_no; [|assumption]. intros d Hd. apply digit_facts in Hd. tauto.
Qed.

Lemma pd_parse_decimal n :
  0 <= n -> pd_parse (decimal n) = Some (LNum false n 0 true).
Proof.
  intros Hn. destruct (decimal_spec n Hn) as (c & s & -> & Hall & Hval).
  now rewrite (pd_parse_digits c s Hall), Hval.
Qed.

Lemma clean_tournaments_played_texts col :
  clean_tournaments_played col =
  fillna0_astype_int (to_numeric_coerce (map count_text col)).
Proof.
  unfold clean_tournaments_played, astype_str. now rewrite !map_map.
Qed.

Lemma wrap_int64_small z : 0 <= z < 2 ^ 63 -> wrap_int64 z = z.
Proof. intros H. unfold wrap_int64. rewrite Z.mod_small; lia. Qed.

(** The entry that [fillna(0).astype(int)] computes for one parsed cell, in
    each of the three column types. *)
Lemma to_numeric_entry texts zs i t :
  fillna0_astype_int (to_numeric_coerce texts) = Ok zs ->
  nth_error texts i = Some t ->
  (forall n, 0 <= n < 2 ^ 53 -> pd_parse t = Some (LNum false n 0 true) ->
             nth_error zs i = Some n) /\
  (pd_parse t = None -> nth_error zs i = Some 0).
Proof.
  intros H Ht. unfold to_numeric_coerce in H.
  pose proof (map_nth_error pd_parse _ _ Ht) as Hp.
  set (ps := map pd_parse texts) in *.
  match type of H with
  | context [forallb ?f ps && _] => set (fits := f) in *
  end.
  destruct (forallb fits ps && _) eqn:Hcond.
  - apply andb_prop in Hcond as [Hfits _].
    rewrite forallb_forall in Hfits.
    pose proof (Hfits _ (nth_error_In _ _ Hp)) as Hfit.
    assert (Hint : forall n, 0 <= n < 2 ^ 53 ->
                   pd_parse t = Some (LNum false n 0 true) ->
                   nth_error (map (fun p => match int_literal p with
                                            | Some z => z
                                            | None => 0
                                            end) ps) i = Some n).
    { intros n Hn E. rewrite (map_nth_error _ _ _ Hp), E. reflexivity. }
    split.
    + intros n Hn E. specialize (Hint n Hn E).
      destruct (existsb _ ps); simpl in H; inversion H; subst zs.
      * rewrite (map_nth_error _ _ _ Hint). f_equal. apply wrap_int64_small. lia.
      * exact Hint.
    + intros E. rewrite E in Hfit. discriminate.
  - cbn [fillna0_astype_int] in H.
    pose proof (map_nth_error (fun p => match p with
                                        | Some l => float_of_literal l
                                        | None => S754_nan
                                        end) _ _ Hp) as Hf.
    pose proof (map_nth_error (fun f => if is_nan f then S754_zero false else f)
                  _ _ Hf) as Hf'.
    destruct (astype_int_nth _ _ _ _ H Hf') as [_ Hz]. rewrite Hz. split.
    + intros n Hn E. rewrite E. cbn [float_of_literal].
      rewrite float_of_decimal_int by lia.
      pose proof (float_of_Z_finite n Hn) as Hfin.
      destruct (float_of_Z n) eqn:Efz; try discriminate; cbn [is_nan];
        rewrite <- Efz; now rewrite float_to_int64_float_of_Z.
    + intros E. rewrite E. reflexivity.
Qed.

Lemma to_numeric_returns texts :
  Forall (fun t => (exists n, 0 <= n < 2 ^ 53 /\
                              pd_parse t = Some (LNum false n 0 true)) \/
                   pd_parse t = None) texts ->
  exists zs, fillna0_astype_int (to_numeric_coerce texts) = Ok zs.
Proof.
  intros Hgood. unfold to_numeric_coerce.
  destruct (forallb _ _ && _).
  - destruct (existsb _ _); simpl; eauto.
  - cbn [fillna0_astype_int]. unfold astype_int.
    match goal with
    | |- context [forallb is_finite ?l] =>
        replace (forallb is_finite l) with true; [eauto|]
    end.
    symmetry. apply forallb_forall. intros f Hf.
    apply in_map_iff in Hf as (f0 & <- & Hf0).
    apply in_map_iff in Hf0 as (p & <- & Hp).
    apply in_map_iff in Hp as (t & <- & Ht).
    rewrite Forall_forall in Hgood.
    destruct (Hgood t Ht) as [(n & Hn & E)|E]; rewrite E.
    + cbn [float_of_literal]. rewrite float_of_decimal_int by lia.
      pose proof (float_of_Z_finite n Hn) as Hfin.
      destruct (float_of_Z n); try discriminate; reflexivity.
    + reflexivity.
Qed.



(** ** End to end: the teams dataset *)

Lemma clean_teams_page labels r1 r2 r3 :
  List.length labels = 4%nat ->
  clean_teams (teams_page labels r1 r2 r3) =
  Ok (mkFrame ["team_name"; "revenue"; "tournaments_played"]
        [ [VStr "TeamA"; VInt 500; VInt 10];
          [VStr "TeamB"; VInt 300; VInt 4] ]).
Proof.
  intros Hlabels. unfold clean_teams, set_columns, teams_page.
  cbn [columns List.length]. rewrite Hlabels. cbn [Nat.eqb rbind].
  vm_compute. reflexivity.
Qed.

Lemma lookup_replace name t' db t :
  lookup name db = Some t -> lookup name (replace name t' db) = Some t'.
Proof.
  induction db as [|[n u] db IH]; simpl; [discriminate|].
  destruct (String.eqb n name) eqn:E; simpl; rewrite E; auto.
Qed.

Lemma lookup_replace_other name other t' db :
  String.eqb other name = false ->
  lookup other (replace name t' db) = lookup other db.
Proof.
  intros Hne. induction db as [|[n u] db IH]; simpl; [reflexivity|].
  destruct (String.eqb n name) eqn:E; simpl.
  - apply String.eqb_eq in E. subst n. rewrite String.eqb_sym in Hne.
    now rewrite Hne.
  - destruct (String.eqb n other); auto.
Qed.

(** C7, as the code has it.  Let the teams pages deliver one table: four
    columns under any labels, a rank cell and then the three cells of the
    example in each of its three rows.  On a store whose relation [teams]
    is as [init_database] creates it, [scrape_teams] returns normally,
    reports two rows inserted, and the relation then holds exactly the two
    rows (1, TeamA, 500, 10) and (2, TeamB, 300, 4); the other relations are
    as before. *)
Theorem scrape_teams_end_to_end (w : World) (s : State) (db : database)
    (labels : list string) (r1 r2 r3 : cell)
    (Hlabels : List.length labels = 4%nat)
    (Hpage : somes (map (page_of w) teams_urls) = [teams_page labels r1 r2 r3])
    (Hserver : server s = Some db)
    (Hteams : lookup "teams" db = Some (mkTable (declared "teams") [] 1)) :
  let db' := replace "teams" (mkTable (declared "teams") teams_loaded 3) db in
  scrape_teams w s =
  (Ok tt,
   mkState (stdout s ++ ScrapingTeams :: error_lines w teams_urls ++
              [AvailableColumns "teams" labels; Inserted 2 "teams"])
           (Some db') (S (opened s)) (S (closed s))) /\
  lookup "teams" db' = Some (mkTable (declared "teams") teams_loaded 3) /\
  forall other, String.eqb other "teams" = false ->
                lookup other db' = lookup other db.
Proof.
  intros db'. split; [|split].
  - unfold scrape_teams, Scraper.bind at 1 2. cbn [print].
    rewrite fetch_multiple_tables_run, Hpage, pd_concat_single.
    unfold Scraper.bind at 1. cbn [print teams_page columns].
    unfold Scraper.bind at 1, lift.
    change (mkFrame labels _) with (teams_page labels r1 r2 r3).
    rewrite (clean_teams_page labels r1 r2 r3 Hlabels).
    destruct s as [out srv o c]. cbn [server] in Hserver. subst srv.
    unfold insert_into_mysql. cbn [empty columns rows].
    unfold Scraper.bind, get_connection, use_database, try_finally, try_except,
      lift, executemany, close_connection, print, printed.
    cbn [server stdout opened closed select mapR index_of].
    unfold insert_rows. rewrite Hteams.
    cbv - [replace error_lines teams_urls app].
    repeat rewrite <- app_assoc. reflexivity.
  - unfold db'. now apply lookup_replace with (mkTable (declared "teams") [] 1).
  - intros other Hne. unfold db'. now apply lookup_replace_other.
Qed.

Lemma scrape_teams_end_to_end_witness :
  let w := world_of [(teams_url,
                      teams_page ["Unnamed: 0"; "Team Name"; "Total Revenue";
                                  "Tournaments"]
                                 (CText "1.") (CText "2.") (CText "3."))] in
  exists s',
    (init_database ;;; scrape_teams w)%M fresh = (Ok tt, s') /\
    option_map (lookup "teams") (server s') =
      Some (Some (mkTable (declared "teams") teams_loaded 3)).
Proof.
  intros w.
  destruct (scrape_teams_end_to_end w (snd (init_database fresh))
              (initialized [])
              ["Unnamed: 0"; "Team Name"; "Total Revenue"; "Tournaments"]
              (CText "1.") (CText "2.") (CText "3.")
              eq_refl eq_refl eq_refl eq_refl) as [Hrun [Hrel _]].
  eexists. split.
  - unfold Scraper.bind. rewrite init_database_run.
    change (snd (init_database fresh))
      with (mkState (stdout fresh) (Some (initialized [])) 1 1) in Hrun.
    cbn [server stdout opened closed fresh] in *. rewrite Hrun. reflexivity.
  - cbn [server option_map]. rewrite Hrel. reflexivity.
Defined.

(** C7 as stated fails: served the rows as the specification lists them,
    three cells each, [scrape_teams] raises at the assignment of its four
    column labels and the relation [teams] stays empty. *)
Lemma scrape_teams_three_columns_raises :
  let w := world_of [(teams_url, teams_page_three_columns)] in
  exists s',
    (init_database ;;; scrape_teams w)%M fresh =
      (Raise (ValueError "Length mismatch"), s') /\
    option_map (lookup "teams") (server s') =
      Some (Some (mkTable (declared "teams") [] 1)).
Proof. intros w. eexists. split; vm_compute; reflexivity. Qed.

(** ** A table with another number of columns *)

Lemma clean_teams_length_mismatch (df : DataFrame cell) :
  List.length (columns df) <> 4%nat ->
  clean_teams df = Raise (ValueError "Length mismatch").
Proof.
  intros H. unfold clean_teams, set_columns. cbn [List.length].
  destruct (Nat.eqb_spec 4 (List.length (columns df))) as [E|_];
    [congruence|reflexivity].
Qed.




(** ** Values that do not parse *)

Lemma mapR_raises_same {A B} (f : A -> result B) (l : list A) (e : exn) x :
  (forall a, In a l -> f a = Raise e \/ exists b, f a = Ok b) ->
  In x l -> f x = Raise e -> mapR f l = Raise e.
Proof.
  induction l as [|a l IH]; intros Hall Hin Hx; [destruct Hin|].
  simpl. destruct (Hall a (or_introl eq_refl)) as [Ha|[b Ha]]; rewrite Ha;
    [reflexivity|].
  destruct Hin as [E|Hin]; [subst x; congruence|].
  rewrite IH; auto. intros a' Ha'. apply Hall. now right.
Qed.

Lemma mapR_raises {A B} (f : A -> result B) (l : list A) (e : exn) x :
  In x l -> f x = Raise e -> exists e', mapR f l = Raise e'.
Proof.
  induction l as [|a l IH]; intros Hin Hx; [destruct Hin|].
  simpl. destruct (f a) as [b|e0] eqn:Hfa; [|eauto].
  destruct Hin as [E|Hin]; [subst x; congruence|].
  destruct (IH Hin Hx) as [e' ->]. eauto.
Qed.

Lemma astype_float_raises col c t :
  In c col -> c = CText t -> py_float t = None ->
  astype_float col = Raise (ValueError "could not convert string to float").
Proof.
  intros Hin -> Ht. unfold astype_float.
  apply mapR_raises_same with (x := CText t); [|assumption|now rewrite Ht].
  intros [u|] _; [|eauto]. destruct (py_float u); eauto.
Qed.

Lemma to_numeric_all_unparsable texts :
  Forall (fun t => pd_parse t = None) texts ->
  fillna0_astype_int (to_numeric_coerce texts) = Ok (map (fun _ => 0) texts).
Proof.
  intros Hall. destruct texts as [|t ts]; [reflexivity|].
  unfold to_numeric_coerce. cbn [map forallb].
  inversion Hall as [|? ? Ht Hts]; subst. rewrite Ht. cbn [int_literal andb].
  cbn [fillna0_astype_int]. unfold astype_int. cbn [map is_nan forallb is_finite andb].
  assert (E : map (fun f => if is_nan f then S754_zero false else f)
                (map (fun p => match p with
                               | Some l => float_of_literal l
                               | None => S754_nan
                               end) (map pd_parse ts)) =
              map (fun _ => S754_zero false) ts).
  { rewrite !map_map. apply map_ext_in. intros a Ha.
    rewrite Forall_forall in Hts. now rewrite (Hts a Ha). }
  rewrite E.
  replace (forallb is_finite (map (fun _ => S754_zero false) ts)) with true.
  - rewrite map_map. reflexivity.
  - symmetry. apply forallb_forall. intros f Hf.
    apply in_map_iff in Hf as (? & <- & _). reflexivity.
Qed.




(** ** What a run prints *)

Lemma insert_into_mysql_output (d : DataFrame value) table cols s :
  match fst (insert_into_mysql (Some d) table cols s) with
  | Ok _ => exists l, is_status table l = true /\
                      stdout (snd (insert_into_mysql (Some d) table cols s)) =
                      stdout s ++ [l]
  | Raise _ => stdout (snd (insert_into_mysql (Some d) table cols s)) = stdout s
  end.
Proof.
  unfold insert_into_mysql. destruct (empty d).
  - simpl. exists (NoDataForTable table). simpl. now rewrite String.eqb_refl.
  - unfold Scraper.bind, get_connection, use_database, try_finally, try_except,
      lift, executemany, close_connection, print.
    cbn [server stdout opened closed]. cbv zeta.
    destruct (server s) as [db|]; [|reflexivity].
    destruct (select cols d) as [sel|e]; cbn -[String.eqb insert_rows where_notnull].
    + destruct (insert_rows table cols (rows (where_notnull sel)) db) as [db'|e];
        cbn -[String.eqb]; eexists; (split; [|reflexivity]);
        apply String.eqb_refl.
    + eexists. split; [|reflexivity]. apply String.eqb_refl.
Qed.

Lemma error_lines_no_status w urls :
  Forall (fun x => is_status_line x = false) (error_lines w urls).
Proof.
  unfold error_lines. induction urls as [|u urls IH]; simpl; [constructor|].
  apply Forall_app. split; [|assumption].
  destruct (read_html w u); repeat constructor.
Qed.

Lemma tournament_lines_no_status w urls :
  Forall (fun x => is_status_line x = false) (tournament_lines w urls).
Proof.
  unfold tournament_lines. induction urls as [|u urls IH]; simpl; [constructor|].
  apply Forall_app. split; [|assumption].
  destruct (read_html w u) as [[|t ts]|e]; repeat constructor.
Qed.

Lemma print_run l s : print l s = (Ok tt, printed s [l]).
Proof. reflexivity. Qed.

Lemma fetch_tournament_pages_run w urls s :
  fetch_tournament_pages w urls s =
  (Ok (tournament_pages w urls), printed s (tournament_lines w urls)).
Proof.
  revert s. induction urls as [|u urls IH]; intros s.
  - simpl. now rewrite printed_nil.
  - cbn [fetch_tournament_pages]. unfold Scraper.bind at 1.
    unfold tournament_pages, tournament_lines. cbn [flat_map].
    destruct (read_html w u) as [[|t ts]|e].
    + unfold Scraper.bind at 1. rewrite print_run. unfold ret at 1.
      unfold Scraper.bind. rewrite IH. unfold ret.
      rewrite printed_printed. reflexivity.
    + unfold ret at 1. unfold Scraper.bind. rewrite IH. unfold ret.
      reflexivity.
    + unfold Scraper.bind at 1. rewrite print_run. unfold ret at 1.
      unfold Scraper.bind. rewrite IH. unfold ret.
      rewrite printed_printed. reflexivity.
Qed.

Lemma load_block (cleaned : result (DataFrame value)) table cols banner mid s0 s :
  Forall (fun x => is_status_line x = false) mid ->
  stdout s = stdout s0 ++ banner :: mid ->
  block_result banner table s0
    (Scraper.bind (lift cleaned)
       (fun df => insert_into_mysql (Some df) table cols) s).
Proof.
  intros Hmid Hout. exists mid. split; [assumption|].
  unfold Scraper.bind, lift. destruct cleaned as [d|e]; [|exact Hout].
  pose proof (insert_into_mysql_output d table cols s) as H.
  destruct (fst (insert_into_mysql (Some d) table cols s)).
  - destruct H as (l & Hl & E). exists l. split; [assumption|].
    rewrite E, Hout. now rewrite <- app_assoc.
  - now rewrite H.
Qed.

Lemma status_block l table banner mid s0 s :
  Forall (fun x => is_status_line x = false) mid ->
  is_status table l = true ->
  stdout s = stdout s0 ++ banner :: mid ->
  block_result banner table s0 (print l s).
Proof.
  intros Hmid Hl Hout. exists mid. split; [assumption|].
  simpl. exists l. split; [assumption|]. rewrite Hout. now rewrite <- app_assoc.
Qed.

Lemma raise_block e table banner mid s0 s :
  Forall (fun x => is_status_line x = false) mid ->
  stdout s = stdout s0 ++ banner :: mid ->
  block_result banner table s0 (@Raise unit e, s).
Proof. intros Hmid Hout. exists mid. split; assumption. Qed.

Lemma scrape_countries_block w s :
  block_result ScrapingCountries "countries" s (scrape_countries w s).
Proof.
  unfold scrape_countries. unfold Scraper.bind at 1. rewrite print_run.
  unfold Scraper.bind at 1. rewrite fetch_html_table_run, printed_printed.
  set (errs := match read_html w countries_url with
               | Ok _ => []
               | Raise e => [ErrorFetching countries_url e]
               end).
  assert (Herrs : Forall (fun x => is_status_line x = false) errs)
    by (unfold errs; destruct (read_html w countries_url); repeat constructor).
  destruct (page_of w countries_url) as [df|].
  - apply load_block with (mid := errs); [assumption|reflexivity].
  - apply status_block with (mid := errs); [assumption|reflexivity|reflexivity].
Qed.

Lemma scrape_players_block w s :
  block_result ScrapingPlayers "players" s (scrape_players w s).
Proof.
  unfold scrape_players. unfold Scraper.bind at 1. rewrite print_run.
  unfold Scraper.bind at 1. rewrite fetch_multiple_tables_run.
  pose proof (error_lines_no_status w players_urls) as Herrs.
  destruct (somes (map (page_of w) players_urls)) as [|f fs].
  - rewrite printed_printed.
    apply status_block with (mid := error_lines w players_urls);
      [assumption|reflexivity|reflexivity].
  - destruct (pd_concat (f :: fs)) as [df|e]; rewrite printed_printed.
    + unfold Scraper.bind at 1. rewrite print_run, printed_printed.
      apply load_block with
        (mid := error_lines w players_urls ++ [AvailableColumns "players" (columns df)]).
      * apply Forall_app. split; [assumption|repeat constructor].
      * reflexivity.
    + apply raise_block with (mid := error_lines w players_urls);
        [assumption|reflexivity].
Qed.

Lemma scrape_tournaments_block w s :
  block_result ScrapingTournaments "tournaments" s (scrape_tournaments w s).
Proof.
  unfold scrape_tournaments. unfold Scraper.bind at 1. rewrite print_run.
  unfold Scraper.bind at 1. rewrite fetch_tournament_pages_run, printed_printed.
  pose proof (tournament_lines_no_status w tournaments_urls) as Hlines.
  destruct (tournament_pages w tournaments_urls) as [|f fs].
  - apply status_block with (mid := tournament_lines w tournaments_urls);
      [assumption|reflexivity|reflexivity].
  - unfold Scraper.bind at 1, lift at 1.
    destruct (pd_concat (f :: fs)) as [df|e].
    + apply load_block with (mid := tournament_lines w tournaments_urls);
        [assumption|reflexivity].
    + apply raise_block with (mid := tournament_lines w tournaments_urls);
        [assumption|reflexivity].
Qed.

Lemma scrape_teams_block w s :
  block_result ScrapingTeams "teams" s (scrape_teams w s).
Proof.
  unfold scrape_teams. unfold Scraper.bind at 1. rewrite print_run.
  unfold Scraper.bind at 1. rewrite fetch_multiple_tables_run.
  pose proof (error_lines_no_status w teams_urls) as Herrs.
  destruct (somes (map (page_of w) teams_urls)) as [|f fs].
  - rewrite printed_printed. unfold Scraper.bind. rewrite print_run, printed_printed.
    apply status_block with (mid := error_lines w teams_urls ++ [SavedCsvNotice]).
    + apply Forall_app. split; [assumption|repeat constructor].
    + reflexivity.
    + unfold printed. cbn [stdout]. now rewrite <- app_assoc.
  - destruct (pd_concat (f :: fs)) as [df|e]; rewrite printed_printed.
    + unfold Scraper.bind at 1. rewrite print_run, printed_printed.
      apply load_block with
        (mid := error_lines w teams_urls ++ [AvailableColumns "teams" (columns df)]).
      * apply Forall_app. split; [assumption|repeat constructor].
      * reflexivity.
    + apply raise_block with (mid := error_lines w teams_urls);
        [assumption|reflexivity].
Qed.

(** One scraper, then the rest of the run. *)
Lemma run_output_chain banner table rest (scraper rest_run : M unit) s :
  block_result banner table s (scraper s) ->
  (forall s', exists out finished,
      run_output rest finished out /\
      stdout (snd (rest_run s')) =
        stdout s' ++ out ++ (if finished then [AllDone] else []) /\
      (if finished then fst (rest_run s') = Ok tt
       else exists e, fst (rest_run s') = Raise e)) ->
  exists out finished,
    run_output ((banner, table) :: rest) finished out /\
    stdout (snd (Scraper.bind scraper (fun _ => rest_run) s)) =
      stdout s ++ out ++ (if finished then [AllDone] else []) /\
    (if finished
     then fst (Scraper.bind scraper (fun _ => rest_run) s) = Ok tt
     else exists e, fst (Scraper.bind scraper (fun _ => rest_run) s) = Raise e).
Proof.
  intros (mid & Hmid & Hblock) Hrest. unfold Scraper.bind.
  destruct (scraper s) as [[[]|e] s1]; cbn [fst snd] in *.
  - destruct Hblock as (l & Hl & Hout).
    destruct (Hrest s1) as (out & finished & Hrun & Hstd & Hres).
    exists (banner :: mid ++ l :: out), finished. split; [|split].
    + now constructor.
    + rewrite Hstd, Hout. repeat rewrite <- app_assoc. cbn [app].
      repeat rewrite <- app_assoc. reflexivity.
    + exact Hres.
  - exists (banner :: mid), false. split; [|split].
    + now constructor.
    + rewrite Hblock, app_nil_r. reflexivity.
    + eauto.
Qed.

(** C9, as the code has it.  [main] prints its opening line, sets the
    store up and runs the datasets in the order countries, players,
    tournaments, teams.  A dataset whose scraper returns prints its banner,
    lines that are no status lines and then exactly one status line of its
    own (rows inserted, insert error, no data, or nothing fetched), also
    when zero rows result.  A scraper that raises prints no status line,
    and the run stops there: [main] raises, the later datasets print
    nothing and the closing line is missing.  The closing line is printed
    exactly when [main] returns. *)
Theorem main_output (w : World) (s : State) :
  exists out finished,
    run_output datasets finished out /\
    stdout (snd (main w s)) =
      stdout s ++ Starting :: out ++ (if finished then [AllDone] else []) /\
    (if finished then fst (main w s) = Ok tt
     else exists e, fst (main w s) = Raise e).
Proof.
  set (s1 := mkState (stdout s ++ [Starting])
                     (Some (initialized (match server s with
                                         | Some db => db
                                         | None => []
                                         end)))
                     (S (opened s)) (S (closed s))).
  assert (Hmain : main w s =
                  Scraper.bind (scrape_countries w) (fun _ =>
                  Scraper.bind (scrape_players w) (fun _ =>
                  Scraper.bind (scrape_tournaments w) (fun _ =>
                  Scraper.bind (scrape_teams w) (fun _ => print AllDone)))) s1).
  { unfold main. unfold Scraper.bind at 1. rewrite print_run.
    unfold Scraper.bind at 1. rewrite init_database_run. reflexivity. }
  rewrite Hmain.
  destruct (run_output_chain ScrapingCountries "countries"
              [ (ScrapingPlayers, "players");
                (ScrapingTournaments, "tournaments"); (ScrapingTeams, "teams") ]
              (scrape_countries w)
              (Scraper.bind (scrape_players w) (fun _ =>
               Scraper.bind (scrape_tournaments w) (fun _ =>
               Scraper.bind (scrape_teams w) (fun _ => print AllDone))))
              s1 (scrape_countries_block w s1))
    as (out & finished & Hrun & Hstd & Hres).
  - intros s2.
    apply (run_output_chain ScrapingPlayers "players" _ (scrape_players w) _ s2
             (scrape_players_block w s2)).
    intros s3.
    apply (run_output_chain ScrapingTournaments "tournaments" _
             (scrape_tournaments w) _ s3 (scrape_tournaments_block w s3)).
    intros s4.
    apply (run_output_chain ScrapingTeams "teams" _ (scrape_teams w) _ s4
             (scrape_teams_block w s4)).
    intros s5. exists [], true. split; [constructor|]. split; reflexivity.
  - exists out, finished. split; [exact Hrun|]. split; [|exact Hres].
    rewrite Hstd. unfold s1. cbn [stdout].
    rewrite <- app_assoc. reflexivity.
Qed.

(** C9 as stated fails: with an earnings cell that is no number on the
    countries page, the run raises inside the countries dataset.  Its
    output is the opening line and the countries banner: no status line for
    countries, and none for players, whose page is good. *)
Lemma main_without_status_line :
  main (world_of [ (countries_url, countries_page_unparsable);
                   (players_url, players_page) ]) fresh =
  (Raise (ValueError "could not convert string to float"),
   mkState [Starting; ScrapingCountries] (Some (initialized [])) 1 1).
Proof. vm_compute. reflexivity. Qed.

(* ===================================================================== *)
(** * Further properties *)
(* ===================================================================== *)

Import Notions.


(** ** The bulk loader *)

Lemma mapR_length {A B} (f : A -> result B) l r :
  mapR f l = Ok r -> List.length r = List.length l.
Proof.
  revert r. induction l as [|a l IH]; intros r H; simpl in H.
  - now inversion H.
  - destruct (f a); [|discriminate]. destruct (mapR f l); [|discriminate].
    inversion H; subst. simpl. f_equal. now apply IH.
Qed.

Lemma select_shape cols d sel :
  select cols d = Ok sel ->
  columns sel = cols /\
  List.length (rows sel) = List.length (rows d) /\
  Forall (fun r => List.length r = List.length cols) (rows sel).
Proof.
  unfold select. destruct (mapR _ cols) as [idx|e] eqn:Hidx; [|discriminate].
  intros H. inversion H; subst sel; clear H. cbn [columns rows].
  split; [reflexivity|]. split; [apply length_map|].
  apply Forall_forall. intros r Hr. apply in_map_iff in Hr as (r0 & <- & _).
  rewrite length_map. now apply mapR_length in Hidx.
Qed.

Lemma where_notnull_clean d :
  Forall (fun r => forallb not_nan r = true) (rows d) -> rows (where_notnull d) = rows d.
Proof.
  intros H. unfold where_notnull. cbn [rows].
  rewrite <- (map_id (rows d)) at 2. apply map_ext_in. intros r Hr.
  rewrite Forall_forall in H. specialize (H r Hr).
  rewrite <- (map_id r) at 2. apply map_ext_in. intros v Hv.
  rewrite forallb_forall in H. specialize (H v Hv).
  destruct v as [? | ? | f | ]; try reflexivity.
  simpl in H. apply negb_true_iff in H. now rewrite H.
Qed.

Lemma stored_rows_length defs cols id data :
  List.length (stored_rows defs cols id data) = List.length data.
Proof.
  revert id. induction data as [|r data IH]; intros id; simpl; [reflexivity|].
  now rewrite IH.
Qed.

(** What the loader does on a frame with records, step by step. *)
Lemma insert_into_mysql_run d table cols s :
  empty d = false ->
  insert_into_mysql (Some d) table cols s =
  match server s with
  | None =>
      (Raise (DatabaseError "Unknown database"),
       mkState (stdout s) None (S (opened s)) (closed s))
  | Some db =>
      match select cols d with
      | Raise e =>
          (Ok tt, mkState (stdout s ++ [InsertError table e]) (Some db)
                          (S (opened s)) (S (closed s)))
      | Ok sel =>
          match insert_rows table cols (rows (where_notnull sel)) db with
          | Raise e =>
              (Ok tt, mkState (stdout s ++ [InsertError table e]) (Some db)
                              (S (opened s)) (S (closed s)))
          | Ok db' =>
              (Ok tt,
               mkState (stdout s ++
                          [Inserted (List.length (rows (where_notnull sel))) table])
                       (Some db') (S (opened s)) (S (closed s)))
          end
      end
  end.
Proof.
  intros Hd. unfold insert_into_mysql. rewrite Hd.
  unfold Scraper.bind, get_connection, use_database, try_finally, try_except,
    lift, executemany, close_connection, print.
  cbn [server stdout opened closed]. cbv zeta.
  destruct (server s) as [db|]; [|reflexivity].
  destruct (select cols d) as [sel|e]; cbn -[insert_rows where_notnull];
    [|reflexivity].
  destruct (insert_rows table cols (rows (where_notnull sel)) db); reflexivity.
Qed.

Lemma insert_rows_ok table cols data db t :
  lookup table db = Some t ->
  forallb (fun c => mem c (map c_name (t_columns t))) cols = true ->
  Forall (fun r => List.length r = List.length cols) data ->
  insert_rows table cols data db =
  Ok (replace table
        (mkTable (t_columns t)
           (t_rows t ++ stored_rows (t_columns t) cols (t_next t) data)
           (t_next t + Z.of_nat (List.length data))) db).
Proof.
  intros Ht Hcols Hdata. unfold insert_rows. rewrite Ht, Hcols. cbn [negb].
  replace (forallb (fun r => Nat.eqb (List.length r) (List.length cols)) data)
    with true; [reflexivity|].
  symmetry. apply forallb_forall. intros r Hr.
  rewrite Forall_forall in Hdata. rewrite (Hdata r Hr). apply Nat.eqb_refl.
Qed.

Lemma select_clean cols d sel :
  select cols d = Ok sel ->
  Forall (fun r => forallb not_nan r = true) (rows d) ->
  Forall (fun r => forallb not_nan r = true) (rows sel).
Proof.
  unfold select. destruct (mapR _ cols) as [idx|e]; [|discriminate].
  intros H Hd. inversion H; subst sel; clear H. cbn [rows].
  apply Forall_forall. intros r Hr. apply in_map_iff in Hr as (r0 & <- & Hr0).
  rewrite Forall_forall in Hd. specialize (Hd r0 Hr0).
  apply forallb_forall. intros v Hv. apply in_map_iff in Hv as (i & <- & _).
  rewrite forallb_forall in Hd.
  destruct (nth_in_or_default i r0 VNone) as [Hin|E]; [now apply Hd|now rewrite E].
Qed.



(** X2.  When the relation does not exist, when the frame lacks a listed
    column, or when the relation does not declare a listed column, the
    loader reports an insert error and returns normally: the store is left
    as it was and the connection it opened is closed. *)
Theorem insert_into_mysql_error_isolated (d : DataFrame value)
    (table : string) (cols : list string) (s : State) (db : database)
    (Hrecords : empty d = false)
    (Hserver : server s = Some db)
    (Hcause : lookup table db = None \/
              (exists e, select cols d = Raise e) \/
              (exists t, lookup table db = Some t /\
                         forallb (fun c => mem c (map c_name (t_columns t))) cols
                         = false)) :
  exists e,
    insert_into_mysql (Some d) table cols s =
    (Ok tt, mkState (stdout s ++ [InsertError table e]) (Some db)
                    (S (opened s)) (S (closed s))).
Proof.
  rewrite (insert_into_mysql_run d table cols s Hrecords), Hserver.
  destruct (select cols d) as [sel|e] eqn:Hsel; [|eauto].
  destruct Hcause as [Hnone|[[e He]|(t & Ht & Hcols)]]; [|discriminate|].
  - unfold insert_rows. rewrite Hnone. eauto.
  - unfold insert_rows. rewrite Ht, Hcols. cbn [negb]. eauto.
Qed.

Lemma insert_into_mysql_error_isolated_witness :
  let d := mkFrame ["team_name"; "revenue"] [[VStr "TeamA"; VInt 500]] in
  exists e,
    insert_into_mysql (Some d) "teams" ["team_name"; "revenue"]
      (mkState [] (Some []) 0 0) =
    (Ok tt, mkState [InsertError "teams" e] (Some []) 1 1).
Proof.
  intros d.
  apply (insert_into_mysql_error_isolated d "teams" ["team_name"; "revenue"]
           (mkState [] (Some []) 0 0) [] eq_refl eq_refl (or_introl eq_refl)).
Defined.

(** X3.  The statement [USE esports_data] runs before the [try] block: on
    a server without that database the loader raises, nothing is printed,
    and the connection it has just opened is never closed. *)
Theorem insert_into_mysql_unknown_database (d : DataFrame value)
    (table : string) (cols : list string) (s : State)
    (Hrecords : empty d = false)
    (Hserver : server s = None) :
  insert_into_mysql (Some d) table cols s =
  (Raise (DatabaseError "Unknown database"),
   mkState (stdout s) None (S (opened s)) (closed s)).
Proof.
  now rewrite (insert_into_mysql_run d table cols s Hrecords), Hserver.
Qed.

Lemma insert_into_mysql_unknown_database_witness :
  insert_into_mysql
    (Some (mkFrame ["team_name"; "revenue"] [[VStr "TeamA"; VInt 500]]))
    "teams" ["team_name"; "revenue"] fresh =
  (Raise (DatabaseError "Unknown database"), mkState [] None 1 0).
Proof.
  apply (insert_into_mysql_unknown_database
           (mkFrame ["team_name"; "revenue"] [[VStr "TeamA"; VInt 500]])
           "teams" ["team_name"; "revenue"] fresh eq_refl eq_refl).
Defined.

Lemma replace_replace name t1 t2 db :
  replace name t2 (replace name t1 db) = replace name t2 db.
Proof.
  induction db as [|[n u] db IH]; simpl; [reflexivity|].
  destruct (String.eqb n name) eqn:E; simpl; rewrite E; [reflexivity|].
  now rewrite IH.
Qed.

Lemma stored_rows_app defs cols id a b :
  stored_rows defs cols id (a ++ b) =
  stored_rows defs cols id a ++
  stored_rows defs cols (id + Z.of_nat (List.length a)) b.
Proof.
  revert id. induction a as [|r a IH]; intros id.
  - simpl. now rewrite Z.add_0_r.
  - cbn [app stored_rows List.length]. rewrite IH. do 3 f_equal. lia.
Qed.



(** ** What a run keeps *)

Lemma grows_refl db : grows db db.
Proof.
  intros name t H. exists t, []. now rewrite app_nil_r.
Qed.

Lemma grows_trans a b c : grows a b -> grows b c -> grows a c.
Proof.
  intros Hab Hbc name t H.
  destruct (Hab name t H) as (t1 & m1 & H1 & Hc1 & Hr1).
  destruct (Hbc name t1 H1) as (t2 & m2 & H2 & Hc2 & Hr2).
  exists t2, (m1 ++ m2). split; [assumption|]. split; [congruence|].
  now rewrite Hr2, Hr1, app_assoc.
Qed.

Lemma grows_create name defs db :
  grows db (create_table_if_not_exists name defs db).
Proof.
  intros n t H. exists t, []. rewrite lookup_create, H, app_nil_r. auto.
Qed.

Lemma grows_initialized db : grows db (initialized db).
Proof.
  unfold initialized. generalize tables. intros l. revert db.
  induction l as [|e l IH]; intros db; simpl; [apply grows_refl|].
  eapply grows_trans; [apply grows_create|apply IH].
Qed.

Lemma grows_insert table cols data db db' :
  insert_rows table cols data db = Ok db' -> grows db db'.
Proof.
  unfold insert_rows. destruct (lookup table db) as [t|] eqn:Ht; [|discriminate].
  destruct (negb _); [discriminate|]. destruct (negb _); [discriminate|].
  intros H. inversion H; subst db'; clear H. intros name u Hu.
  destruct (String.eqb name table) eqn:E.
  - apply String.eqb_eq in E. subst name.
    assert (u = t) by congruence. subst u.
    eexists. eexists. split; [now apply lookup_replace with t|].
    cbn [t_columns t_rows]. split; reflexivity.
  - exists u, []. rewrite lookup_replace_other by assumption.
    rewrite app_nil_r. auto.
Qed.

Lemma step_weaken k m s s' : (k <= m)%nat -> step k s s' -> step m s s'.
Proof.
  intros Hkm (db & db' & j & H1 & H2 & H3 & Hj & H4 & H5).
  exists db, db', j. repeat split; try assumption. lia.
Qed.

Lemma step_trans k m s1 s2 s3 :
  step k s1 s2 -> step m s2 s3 -> step (k + m) s1 s3.
Proof.
  intros (db1 & db2 & j & H1 & H2 & H3 & Hj & H4 & H5)
         (db2' & db3 & i & G1 & G2 & G3 & Hi & G4 & G5).
  assert (db2' = db2) by congruence. subst db2'.
  exists db1, db3, (j + i)%nat. split; [assumption|]. split; [assumption|].
  split; [now apply grows_trans with db2|]. repeat split; lia.
Qed.

Lemma step_same_store k s0 s s' :
  server s = server s0 -> opened s = opened s0 -> closed s = closed s0 ->
  step k s s' -> step k s0 s'.
Proof.
  intros Hs Ho Hc (db & db' & j & H1 & H2 & H3 & Hj & H4 & H5).
  exists db, db', j. repeat split; try assumption; congruence.
Qed.

Lemma step_here s db : server s = Some db -> step 0 s s.
Proof.
  intros H. exists db, db, 0%nat. repeat split; auto using grows_refl; lia.
Qed.

Lemma keeps_print l : keeps 0 (print l).
Proof.
  intros s db H. cbn [print snd].
  apply step_same_store with (s := printed s [l]); try reflexivity.
  now apply step_here with db.
Qed.

Lemma keeps_bind k m (c c' : M unit) :
  keeps k c -> keeps m c' -> keeps (k + m) (Scraper.bind c (fun _ => c')).
Proof.
  intros Hc Hc' s db H. unfold Scraper.bind.
  specialize (Hc s db H). destruct (c s) as [[[]|e] s1]; cbn [snd] in *.
  - destruct Hc as (db0 & db1 & j & H1 & H2 & H3 & Hj & H4 & H5).
    apply step_trans with s1; [now exists db0, db1, j|].
    now apply Hc' with db1.
  - apply step_weaken with k; [lia|assumption].
Qed.

Lemma keeps_insert df table cols : keeps 1 (insert_into_mysql df table cols).
Proof.
  intros s db H. destruct df as [d|].
  2: { apply step_weaken with 0%nat; [lia|]. now apply (keeps_print _ s db). }
  destruct (empty d) eqn:Hd.
  { unfold insert_into_mysql. rewrite Hd.
    apply step_weaken with 0%nat; [lia|]. now apply (keeps_print _ s db). }
  rewrite (insert_into_mysql_run d table cols s Hd), H.
  destruct (select cols d) as [sel|e]; cbn [snd].
  - destruct (insert_rows table cols (rows (where_notnull sel)) db) as [db'|e] eqn:Hi;
      cbn [snd].
    + exists db, db', 1%nat. cbn [server opened closed].
      repeat split; try assumption; try lia. now apply grows_insert in Hi.
    + exists db, db, 1%nat. cbn [server opened closed].
      repeat split; auto using grows_refl; lia.
  - exists db, db, 1%nat. cbn [server opened closed].
    repeat split; auto using grows_refl; lia.
Qed.

(** Cleaning, then loading: the step of the loader, or none when cleaning
    raises. *)
Lemma keeps_load (cleaned : result (DataFrame value)) table cols :
  keeps 1 (Scraper.bind (lift cleaned)
             (fun df => insert_into_mysql (Some df) table cols)).
Proof.
  intros s db H. unfold Scraper.bind, lift. destruct cleaned as [d|e].
  - now apply (keeps_insert (Some d) table cols s db).
  - cbn [snd]. apply step_weaken with 0%nat; [lia|]. now apply step_here with db.
Qed.

(** A computation run after some printing keeps what it keeps. *)
Lemma step_after_print k (c : M unit) s ls db :
  keeps k c -> server s = Some db -> step k s (snd (c (printed s ls))).
Proof.
  intros Hc H.
  apply step_same_store with (s := printed s ls); try reflexivity.
  now apply Hc with db.
Qed.

Lemma keeps_raise (e : exn) : keeps 0 (fun s => (Raise e, s)).
Proof. intros s db H. now apply step_here with db. Qed.

Lemma keeps_weaken k m c : (k <= m)%nat -> keeps k c -> keeps m c.
Proof.
  intros Hkm Hc s db H. apply step_weaken with k; [assumption|].
  now apply Hc with db.
Qed.

Lemma scrape_countries_keeps w : keeps 1 (scrape_countries w).
Proof.
  intros s db H. unfold scrape_countries. unfold Scraper.bind at 1.
  rewrite print_run. unfold Scraper.bind at 1.
  rewrite fetch_html_table_run, printed_printed.
  destruct (page_of w countries_url) as [df|].
  - apply step_after_print with db; [apply keeps_load|assumption].
  - apply step_after_print with db;
      [apply keeps_weaken with 0%nat; [lia|apply keeps_print]|assumption].
Qed.

Lemma scrape_players_keeps w : keeps 1 (scrape_players w).
Proof.
  intros s db H. unfold scrape_players. unfold Scraper.bind at 1.
  rewrite print_run. unfold Scraper.bind at 1. rewrite fetch_multiple_tables_run.
  destruct (somes (map (page_of w) players_urls)) as [|f fs].
  - rewrite printed_printed. apply step_after_print with db;
      [apply keeps_weaken with 0%nat; [lia|apply keeps_print]|assumption].
  - destruct (pd_concat (f :: fs)) as [df|e]; rewrite printed_printed.
    + unfold Scraper.bind at 1. rewrite print_run, printed_printed.
      apply step_after_print with db; [apply keeps_load|assumption].
    + cbn [snd]. apply (step_after_print 1 (fun s => (Raise e, s)) s _ db);
        [apply keeps_weaken with 0%nat; [lia|apply keeps_raise]|assumption].
Qed.

Lemma scrape_tournaments_keeps w : keeps 1 (scrape_tournaments w).
Proof.
  intros s db H. unfold scrape_tournaments. unfold Scraper.bind at 1.
  rewrite print_run. unfold Scraper.bind at 1.
  rewrite fetch_tournament_pages_run, printed_printed.
  destruct (tournament_pages w tournaments_urls) as [|f fs].
  - apply step_after_print with db;
      [apply keeps_weaken with 0%nat; [lia|apply keeps_print]|assumption].
  - unfold Scraper.bind at 1, lift at 1.
    destruct (pd_concat (f :: fs)) as [df|e].
    + apply step_after_print with db; [apply keeps_load|assumption].
    + cbn [snd]. apply (step_after_print 1 (fun s => (Raise e, s)) s _ db);
        [apply keeps_weaken with 0%nat; [lia|apply keeps_raise]|assumption].
Qed.

Lemma scrape_teams_keeps w : keeps 1 (scrape_teams w).
Proof.
  intros s db H. unfold scrape_teams. unfold Scraper.bind at 1.
  rewrite print_run. unfold Scraper.bind at 1. rewrite fetch_multiple_tables_run.
  destruct (somes (map (page_of w) teams_urls)) as [|f fs].
  - rewrite printed_printed. unfold Scraper.bind. rewrite print_run, printed_printed.
    apply step_after_print with db;
      [apply keeps_weaken with 0%nat; [lia|apply keeps_print]|assumption].
  - destruct (pd_concat (f :: fs)) as [df|e]; rewrite printed_printed.
    + unfold Scraper.bind at 1. rewrite print_run, printed_printed.
      apply step_after_print with db; [apply keeps_load|assumption].
    + cbn [snd]. apply (step_after_print 1 (fun s => (Raise e, s)) s _ db);
        [apply keeps_weaken with 0%nat; [lia|apply keeps_raise]|assumption].
Qed.

(** From any state, what a whole run keeps. *)
Lemma main_step w s :
  exists db' j,
    server (snd (main w s)) = Some db' /\
    grows (relations s) (initialized (relations s)) /\
    grows (initialized (relations s)) db' /\
    (j <= 4)%nat /\
    opened (snd (main w s)) = (opened s + 1 + j)%nat /\
    closed (snd (main w s)) = (closed s + 1 + j)%nat.
Proof.
  set (s1 := mkState (stdout s ++ [Starting]) (Some (initialized (relations s)))
                     (S (opened s)) (S (closed s))).
  assert (Hmain : main w s =
                  Scraper.bind (scrape_countries w) (fun _ =>
                  Scraper.bind (scrape_players w) (fun _ =>
                  Scraper.bind (scrape_tournaments w) (fun _ =>
                  Scraper.bind (scrape_teams w) (fun _ => print AllDone)))) s1).
  { unfold main. unfold Scraper.bind at 1. rewrite print_run.
    unfold Scraper.bind at 1. rewrite init_database_run. reflexivity. }
  rewrite Hmain.
  assert (Hk : keeps (1 + (1 + (1 + (1 + 0))))
                 (Scraper.bind (scrape_countries w) (fun _ =>
                  Scraper.bind (scrape_players w) (fun _ =>
                  Scraper.bind (scrape_tournaments w) (fun _ =>
                  Scraper.bind (scrape_teams w) (fun _ => print AllDone)))))).
  { repeat apply keeps_bind;
      auto using scrape_countries_keeps, scrape_players_keeps,
        scrape_tournaments_keeps, scrape_teams_keeps, keeps_print. }
  destruct (Hk s1 (initialized (relations s)) eq_refl)
    as (db & db' & j & H1 & H2 & H3 & Hj & H4 & H5).
  cbn [server s1] in H1. inversion H1; subst db.
  exists db', j. split; [assumption|]. split; [apply grows_initialized|].
  split; [assumption|]. split; [simpl in Hj; lia|].
  cbn [opened closed s1] in H4, H5. lia.
Qed.

(** X5.  A run of [main] never leaves a connection open: whatever the
    pages deliver, and also when a dataset raises, every connection that
    was opened has been closed when [main] ends; there are between one and
    five of them (the set-up, and at most one per dataset). *)
Theorem main_connections_balanced (w : World) (s : State) :
  exists k,
    (1 <= k <= 5)%nat /\
    opened (snd (main w s)) = (opened s + k)%nat /\
    closed (snd (main w s)) = (closed s + k)%nat.
Proof.
  destruct (main_step w s) as (db' & j & _ & _ & _ & Hj & Ho & Hc).
  exists (1 + j)%nat. repeat split; lia.
Qed.

(** X6.  A run of [main] only adds to the store: after it, whether it
    returned or raised, the database exists with the four relations of the
    scraper, and every relation that existed before has the columns it had
    and its former rows, unchanged and in place, before any new ones. *)
Theorem main_store_grows (w : World) (s : State) :
  exists db',
    server (snd (main w s)) = Some db' /\
    grows (relations s) db' /\
    forall key name defs, In (key, (name, defs)) tables ->
                          exists t, lookup name db' = Some t.
Proof.
  destruct (main_step w s) as (db' & j & Hs & Hg1 & Hg2 & _).
  exists db'. split; [assumption|]. split; [now apply grows_trans with (initialized (relations s))|].
  intros key name defs Hin.
  assert (exists t, lookup name (initialized (relations s)) = Some t) as [t Ht].
  { destruct (lookup name (relations s)) as [t|] eqn:Hl.
    - exists t. now apply lookup_initialized_existing.
    - eexists. apply lookup_initialized_new with key; eassumption. }
  destruct (Hg2 name t Ht) as (t' & _ & Ht' & _). eauto.
Qed.

(** ** A run without data *)

Lemma somes_none w urls :
  (forall url, page_of w url = None) -> somes (map (page_of w) urls) = [].
Proof.
  intros H. induction urls as [|u urls IH]; simpl; [reflexivity|].
  now rewrite H.
Qed.

Lemma tournament_pages_none w urls :
  (forall url, page_of w url = None) -> tournament_pages w urls = [].
Proof.
  intros H. unfold tournament_pages.
  induction urls as [|u urls IH]; simpl; [reflexivity|].
  rewrite IH. specialize (H u). unfold page_of in H.
  destruct (read_html w u) as [[|t ts]|e]; try reflexivity. discriminate.
Qed.

Lemma bind_run {A B} (c : M A) (k : A -> M B) s a s1 :
  c s = (Ok a, s1) -> Scraper.bind c k s = k a s1.
Proof. intros H. unfold Scraper.bind. now rewrite H. Qed.

Lemma scrape_countries_nothing w s :
  (forall url, page_of w url = None) ->
  scrape_countries w s =
  (Ok tt, printed s (ScrapingCountries :: error_lines w [countries_url] ++
                     [NoCountryData])).
Proof.
  intros Hnone. unfold scrape_countries.
  rewrite (bind_run _ _ _ _ _ (print_run _ _)).
  rewrite (bind_run _ _ _ _ _ (fetch_html_table_run _ _ _)).
  rewrite Hnone, print_run, !printed_printed. unfold error_lines.
  cbn [flat_map]. now rewrite app_nil_r.
Qed.

Lemma scrape_players_nothing w s :
  (forall url, page_of w url = None) ->
  scrape_players w s =
  (Ok tt, printed s (ScrapingPlayers :: error_lines w players_urls ++
                     [FailedPlayers])).
Proof.
  intros Hnone. unfold scrape_players.
  rewrite (bind_run _ _ _ _ _ (print_run _ _)).
  rewrite (bind_run _ _ _ None (printed (printed s [ScrapingPlayers])
                                        (error_lines w players_urls))).
  - now rewrite print_run, !printed_printed.
  - now rewrite fetch_multiple_tables_run, (somes_none w _ Hnone).
Qed.

Lemma scrape_tournaments_nothing w s :
  (forall url, page_of w url = None) ->
  scrape_tournaments w s =
  (Ok tt, printed s (ScrapingTournaments :: tournament_lines w tournaments_urls ++
                     [NoTournamentData])).
Proof.
  intros Hnone. unfold scrape_tournaments.
  rewrite (bind_run _ _ _ _ _ (print_run _ _)).
  rewrite (bind_run _ _ _ _ _ (fetch_tournament_pages_run _ _ _)).
  now rewrite (tournament_pages_none w _ Hnone), print_run, !printed_printed.
Qed.

Lemma scrape_teams_nothing w s :
  (forall url, page_of w url = None) ->
  scrape_teams w s =
  (Ok tt, printed s (ScrapingTeams :: error_lines w teams_urls ++
                     [SavedCsvNotice; FailedTeams])).
Proof.
  intros Hnone. unfold scrape_teams.
  rewrite (bind_run _ _ _ _ _ (print_run _ _)).
  rewrite (bind_run _ _ _ None (printed (printed s [ScrapingTeams])
                                        (error_lines w teams_urls))).
  - rewrite (bind_run _ _ _ _ _ (print_run _ _)), print_run, !printed_printed.
    reflexivity.
  - now rewrite fetch_multiple_tables_run, (somes_none w _ Hnone).
Qed.

(** X7.  When no page delivers a table, [main] returns normally: it sets
    the store up, prints for each dataset its banner, the fetch errors and
    the line saying that nothing was fetched, loads nothing, and opens no
    connection beyond the one of the set-up. *)
Theorem main_nothing_fetched (w : World) (s : State)
    (Hnone : forall url, page_of w url = None) :
  main w s =
  (Ok tt,
   mkState
     (stdout s ++
      Starting ::
      ScrapingCountries :: error_lines w [countries_url] ++
      NoCountryData ::
      ScrapingPlayers :: error_lines w players_urls ++
      FailedPlayers ::
      ScrapingTournaments :: tournament_lines w tournaments_urls ++
      NoTournamentData ::
      ScrapingTeams :: error_lines w teams_urls ++
      [SavedCsvNotice; FailedTeams; AllDone])
     (Some (initialized (relations s))) (S (opened s)) (S (closed s))).
Proof.
  unfold main.
  rewrite (bind_run _ _ _ _ _ (print_run Starting s)).
  rewrite (bind_run _ _ _ _ _ (init_database_run _)).
  rewrite (bind_run _ _ _ _ _ (scrape_countries_nothing w _ Hnone)).
  rewrite (bind_run _ _ _ _ _ (scrape_players_nothing w _ Hnone)).
  rewrite (bind_run _ _ _ _ _ (scrape_tournaments_nothing w _ Hnone)).
  rewrite (bind_run _ _ _ _ _ (scrape_teams_nothing w _ Hnone)).
  rewrite print_run, !printed_printed. unfold printed, relations.
  cbn [stdout server opened closed].
  repeat (rewrite <- app_assoc; cbn [app]). reflexivity.
Qed.

Lemma main_nothing_fetched_witness :
  exists out,
    main (world_of []) fresh =
      (Ok tt, mkState out (Some (initialized [])) 1 1) /\
    filter is_status_line out =
      [NoCountryData; FailedPlayers; NoTournamentData; FailedTeams].
Proof.
  eexists. split.
  - apply (main_nothing_fetched (world_of []) fresh). reflexivity.
  - vm_compute. reflexivity.
Defined.

(** ** The other cleaning rules *)

Lemma str_replace_percent_suffix c s :
  all_chars is_digit (String c s) = true ->
  str_replace "%" (String c s ++ "%")%string = String c s.
Proof.
  intros H. unfold str_replace. rewrite remove_sub_after.
  - change (remove_sub "%" O "%") with EmptyString. apply string_app_empty.
  - apply digits_no; [|assumption]. intros d Hd. apply digit_facts in Hd. tauto.
Qed.

Lemma clean_percent_cells col :
  clean_percent col =
  mapR (fun c => match c with
                 | CText t => match py_float t with
                              | Some f => Ok f
                              | None => Raise (ValueError "could not convert string to float")
                              end
                 | CMissing => Ok S754_nan
                 end)
       (map (fun c => CText (str_replace "%"
                               match c with CText t => t | CMissing => "nan" end))
            col).
Proof.
  unfold clean_percent, astype_float_str, astype_float, astype_str.
  now rewrite !map_map.
Qed.

(** X8.  The percentage rule on a cell "N%", N the decimal numeral of a
    natural number, in any column: when the rule returns, the entry of the
    cell is the binary64 number nearest to N, which is N itself below 2^53;
    and on such a cell the rule does return. *)
Theorem clean_percent_value (col : list cell) (i : nat) (n : Z)
    (Hcell : nth_error col i = Some (CText (decimal n ++ "%")%string))
    (Hn : 0 <= n) :
  (forall fs, clean_percent col = Ok fs ->
              nth_error fs i = Some (float_of_Z n)) /\
  clean_percent [CText (decimal n ++ "%")%string] = Ok [float_of_Z n] /\
  (n < 2 ^ 53 -> is_finite (float_of_Z n) = true /\ trunc (float_of_Z n) = n).
Proof.
  destruct (decimal_spec n Hn) as (c & s & E & Hall & Hval).
  assert (Hfloat : py_float (str_replace "%" (decimal n ++ "%")%string) =
                   Some (float_of_Z n)).
  { rewrite E, (str_replace_percent_suffix c s Hall).
    now rewrite (py_float_digits c s Hall), Hval. }
  split; [|split].
  - intros fs H. rewrite clean_percent_cells in H.
    destruct (mapR_nth_error _ _ _ i _ H (map_nth_error _ _ _ Hcell))
      as (y & Hy & Hnth).
    rewrite Hfloat in Hy. now inversion Hy; subst y.
  - rewrite clean_percent_cells. cbn [map mapR]. now rewrite Hfloat.
  - intros Hsmall. split; [apply float_of_Z_finite|apply trunc_float_of_Z]; lia.
Qed.

Lemma clean_percent_value_witness :
  clean_percent [CText "45%"; CText "100%"] =
    Ok [float_of_Z 45; float_of_Z 100] /\
  nth_error [float_of_Z 45; float_of_Z 100] 0 = Some (float_of_Z 45).
Proof.
  split; [vm_compute; reflexivity|].
  apply (proj1 (clean_percent_value [CText "45%"; CText "100%"] 0%nat 45
                  eq_refl ltac:(lia))).
  vm_compute. reflexivity.
Defined.

Lemma all_chars_filter p s : all_chars p (filter_chars p s) = true.
Proof.
  induction s as [|c s IH]; simpl; [reflexivity|].
  destruct (p c) eqn:E; simpl; [now rewrite E|assumption].
Qed.

(** [int(s)] on a string of decimal digits *)
Lemma py_int_digits c s :
  all_chars is_digit (String c s) = true ->
  py_int (String c s) = Some (digits_value (String c s)).
Proof.
  intros H. unfold py_int.
  rewrite strip_none by (apply digits_no; [apply digit_facts|assumption]).
  rewrite (drop_underscores_digits _ _ H).
  pose proof H as H'. simpl in H'. apply andb_prop in H' as [Hc _].
  rewrite (parse_sign_digit c s Hc), H. reflexivity.
Qed.

Lemma clean_digits_cells col :
  clean_digits col =
  mapR (fun t => match py_int t with
                 | None => Raise (ValueError "invalid literal for int()")
                 | Some z => if in_int64 z then Ok z else Raise OverflowError
                 end)
       (map (fun c => filter_chars is_digit
                        match c with CText t => t | CMissing => "nan" end) col).
Proof.
  unfold clean_digits, astype_int_str, astype_str. now rewrite map_map.
Qed.



(** ** Missing cells *)

Lemma to_numeric_entry_nan texts zs i t :
  fillna0_astype_int (to_numeric_coerce texts) = Ok zs ->
  nth_error texts i = Some t ->
  pd_parse t = Some LNan ->
  nth_error zs i = Some 0.
Proof.
  intros H Ht E. unfold to_numeric_coerce in H.
  pose proof (map_nth_error pd_parse _ _ Ht) as Hp.
  set (ps := map pd_parse texts) in *.
  match type of H with
  | context [forallb ?f ps && _] => set (fits := f) in *
  end.
  destruct (forallb fits ps && _) eqn:Hcond.
  - apply andb_prop in Hcond as [Hfits _].
    rewrite forallb_forall in Hfits.
    pose proof (Hfits _ (nth_error_In _ _ Hp)) as Hfit.
    rewrite E in Hfit. discriminate.
  - cbn [fillna0_astype_int] in H.
    pose proof (map_nth_error (fun p => match p with
                                        | Some l => float_of_literal l
                                        | None => S754_nan
                                        end) _ _ Hp) as Hf.
    pose proof (map_nth_error (fun f => if is_nan f then S754_zero false else f)
                  _ _ Hf) as Hf'.
    destruct (astype_int_nth _ _ _ _ H Hf') as [_ Hz]. rewrite Hz, E. reflexivity.
Qed.

(** X10.  A missing cell, in any column, under each rule.  It stays a
    missing float under the currency rule and the percentage rule, when
    they return; the integer conversion that follows the currency rule in
    players, tournaments and teams then raises, and so does the digit-count
    rule, so that the dataset is not loaded; the unit-suffixed count rule
    turns it into 0. *)
Theorem cleaning_rules_on_missing (col : list cell) (i : nat)
    (Hcell : nth_error col i = Some CMissing) :
  (forall fs, clean_currency col = Ok fs -> nth_error fs i = Some S754_nan) /\
  (forall fs, clean_percent col = Ok fs -> nth_error fs i = Some S754_nan) /\
  (exists e, clean_currency_int col = Raise e) /\
  (exists e, clean_digits col = Raise e) /\
  (forall zs, clean_tournaments_played col = Ok zs -> nth_error zs i = Some 0).
Proof.
  assert (Hcur : forall fs, clean_currency col = Ok fs ->
                            nth_error fs i = Some S754_nan).
  { intros fs H. unfold clean_currency, astype_float, replace_currency in H.
    destruct (mapR_nth_error _ _ _ i _ H (map_nth_error _ _ _ Hcell))
      as (y & Hy & Hnth).
    now inversion Hy; subst y. }
  split; [exact Hcur|]. split; [|split; [|split]].
  - intros fs H. rewrite clean_percent_cells in H.
    destruct (mapR_nth_error _ _ _ i _ H (map_nth_error _ _ _ Hcell))
      as (y & Hy & Hnth).
    vm_compute in Hy. now inversion Hy; subst y.
  - unfold clean_currency_int.
    destruct (clean_currency col) as [fs|e] eqn:Hc; [|simpl; eauto].
    cbn [rbind]. unfold astype_int.
    replace (forallb is_finite fs) with false; [eauto|].
    symmetry. apply not_true_is_false. intros Hall.
    rewrite forallb_forall in Hall.
    specialize (Hall _ (nth_error_In _ _ (Hcur fs eq_refl))). discriminate.
  - rewrite clean_digits_cells.
    apply mapR_raises with (x := EmptyString)
                           (e := ValueError "invalid literal for int()");
      [|reflexivity].
    apply in_map_iff. exists CMissing. split; [reflexivity|].
    now apply nth_error_In with i.
  - intros zs H. rewrite clean_tournaments_played_texts in H.
    apply (to_numeric_entry_nan _ zs i _ H (map_nth_error count_text _ _ Hcell)).
    reflexivity.
Qed.

Lemma cleaning_rules_on_missing_witness :
  clean_currency [CText "$5"; CMissing] = Ok [float_of_Z 5; S754_nan] /\
  clean_currency_int [CText "$5"; CMissing] = Raise IntCastingNaNError /\
  clean_tournaments_played [CText "3 Tournaments"; CMissing] = Ok [3; 0] /\
  nth_error [3; 0] 1 = Some 0.
Proof.
  split; [vm_compute; reflexivity|].
  split; [vm_compute; reflexivity|].
  split; [vm_compute; reflexivity|].
  apply (proj2 (proj2 (proj2 (proj2 (cleaning_rules_on_missing
           [CText "3 Tournaments"; CMissing] 1%nat eq_refl))))).
  vm_compute. reflexivity.
Defined.

(** ** The cleaned frames *)

Lemma keep_first_length_le {A} (eqb : A -> A -> bool) seen l :
  (List.length (keep_first eqb seen l) <= List.length l)%nat.
Proof.
  revert seen. induction l as [|r t IH]; intros seen; simpl; [lia|].
  destruct (existsb (eqb r) seen); simpl.
  - specialize (IH seen). lia.
  - specialize (IH (r :: seen)). lia.
Qed.

Lemma frame_of_series_shape n series :
  shape (map fst series) n (drop_duplicates (frame_of_series n series)).
Proof.
  unfold shape, drop_duplicates, frame_of_series. cbn [columns rows].
  split; [reflexivity|]. split; [|split].
  - apply Forall_forall. intros r Hr. apply keep_first_In in Hr.
    apply in_map_iff in Hr as (i & <- & _). now rewrite !length_map.
  - apply (keep_first_distinct row_eqb row_eqb_sym).
  - etransitivity; [apply keep_first_length_le|].
    now rewrite length_map, length_seq.
Qed.

Ltac rbind_inv H :=
  repeat match type of H with
         | rbind ?r _ = Ok _ =>
             let E := fresh "E" in
             destruct r eqn:E; [cbn [rbind] in H|discriminate H]
         end.

Lemma set_columns_rows {A} labels (df df' : DataFrame A) :
  set_columns labels df = Ok df' -> rows df' = rows df /\ columns df' = labels.
Proof.
  unfold set_columns. destruct (Nat.eqb _ _); [|discriminate].
  intros H. inversion H. auto.
Qed.

(** X11.  Whatever the pages hold, a frame that leaves cleaning has the
    canonical header of its dataset, one field per label in every record,
    no two equal records, and at most as many records as the raw table has
    rows. *)
Theorem cleaned_frames_shape (df : DataFrame cell) (d : DataFrame value) :
  (clean_countries df = Ok d ->
   shape ["name"; "total_earnings"; "num_players"; "top_game";
          "game_earnings"; "game_percent"] (List.length (rows df)) d) /\
  (clean_players df = Ok d ->
   shape ["player_id"; "player_name"; "total_earnings"; "main_game";
          "earnings_percent"] (List.length (rows df)) d) /\
  (clean_tournaments df = Ok d ->
   shape ["tournament_name"; "prize_pool"; "game"] (List.length (rows df)) d) /\
  (clean_teams df = Ok d ->
   shape ["team_name"; "revenue"; "tournaments_played"]
         (List.length (rows df)) d).
Proof.
  split; [|split; [|split]]; intros H.
  - unfold clean_countries in H. rbind_inv H.
    apply set_columns_rows in E as [Hrows _].
    inversion H; subst d. rewrite Hrows. apply frame_of_series_shape.
  - unfold clean_players in H. cbv zeta in H. rbind_inv H.
    apply set_columns_rows in E as [Hrows _].
    inversion H; subst d. rewrite Hrows.
    replace (List.length (rows (if mem A_CIRCUMFLEX (columns df)
                                then drop_column A_CIRCUMFLEX df else df)))
      with (List.length (rows df))
      by (destruct (mem _ _); [unfold drop_column; cbn [rows];
                               now rewrite length_map|reflexivity]).
    apply frame_of_series_shape.
  - unfold clean_tournaments in H. cbv zeta in H. rbind_inv H.
    apply set_columns_rows in E as [Hrows _].
    inversion H; subst d. rewrite Hrows. unfold iloc_columns. cbn [rows].
    rewrite length_map. apply frame_of_series_shape.
  - unfold clean_teams in H. rbind_inv H.
    apply set_columns_rows in E as [Hrows _].
    inversion H; subst d. rewrite Hrows. apply frame_of_series_shape.
Qed.

Lemma cleaned_frames_shape_witness :
  let page := mkFrame ["#"; "Team"; "Revenue"; "Played"]
                [ [CText "1."; CText "TeamA"; CText "$1,500"; CText "12 Tournaments"];
                  [CText "1."; CText "TeamA"; CText "$1,500"; CText "12 Tournaments"];
                  [CText "2."; CText "TeamB"; CText "$300"; CText "3 Tournaments"] ] in
  exists d,
    clean_teams page = Ok d /\
    List.length (rows d) = 2%nat /\
    shape ["team_name"; "revenue"; "tournaments_played"] 3 d.
Proof.
  intros page. eexists. split; [vm_compute; reflexivity|].
  split; [reflexivity|].
  apply (proj2 (proj2 (proj2 (cleaned_frames_shape page _)))).
  vm_compute. reflexivity.
Defined.

(** X12.  Cleaning maps columns by position: two raw tables with the same
    rows and headers of the same length are cleaned alike, whatever the
    header texts are.  For players this holds between headers that both
    lack the label of the stray column. *)
Theorem cleaning_is_positional (labels labels' : list string)
    (rs : list (list cell))
    (Hlength : List.length labels = List.length labels') :
  clean_countries (mkFrame labels rs) = clean_countries (mkFrame labels' rs) /\
  clean_tournaments (mkFrame labels rs) = clean_tournaments (mkFrame labels' rs) /\
  clean_teams (mkFrame labels rs) = clean_teams (mkFrame labels' rs) /\
  (mem A_CIRCUMFLEX labels = false -> mem A_CIRCUMFLEX labels' = false ->
   clean_players (mkFrame labels rs) = clean_players (mkFrame labels' rs)).
Proof.
  split; [|split; [|split]].
  - unfold clean_countries, set_columns. cbn [columns rows]. now rewrite Hlength.
  - unfold clean_tournaments, iloc_columns, set_columns. cbn [columns rows].
    now rewrite !length_firstn, Hlength.
  - unfold clean_teams, set_columns. cbn [columns rows]. now rewrite Hlength.
  - intros H H'. unfold clean_players, set_columns. cbn [columns rows].
    rewrite H, H'. cbn [columns rows]. now rewrite Hlength.
Qed.

Lemma cleaning_is_positional_witness :
  clean_teams (mkFrame ["a"; "b"; "c"; "d"]
                 [[CText "1."; CText "TeamA"; CText "$500"; CText "10 Tournaments"]]) =
  clean_teams (mkFrame ["rank"; "Team"; "Revenue"; "Played"]
                 [[CText "1."; CText "TeamA"; CText "$500"; CText "10 Tournaments"]]).
Proof.
  apply (proj1 (proj2 (proj2 (cleaning_is_positional ["a"; "b"; "c"; "d"]
                                ["rank"; "Team"; "Revenue"; "Played"]
                                [[CText "1."; CText "TeamA"; CText "$500";
                                  CText "10 Tournaments"]] eq_refl)))).
Defined.

(** X13.  [scrape_tournaments] reads the first four columns only.  Two
    aggregated tables with at least four columns each whose rows agree on
    their first four cells are cleaned alike, so that columns added to the
    right of the page change nothing; a table with fewer than four columns
    makes the assignment of the four labels raise. *)
Theorem clean_tournaments_first_four (df df' : DataFrame cell)
    (Hrows : map (firstn 4) (rows df) = map (firstn 4) (rows df')) :
  ((4 <= List.length (columns df))%nat -> (4 <= List.length (columns df'))%nat ->
   clean_tournaments df = clean_tournaments df') /\
  ((List.length (columns df) < 4)%nat ->
   clean_tournaments df = Raise (ValueError "Length mismatch")).
Proof.
  split.
  - intros H H'. unfold clean_tournaments, iloc_columns, set_columns.
    cbn [columns rows]. rewrite !length_firstn, Hrows.
    now rewrite !Nat.min_l by assumption.
  - intros H. unfold clean_tournaments, iloc_columns, set_columns.
    cbn [columns rows]. rewrite length_firstn.
    rewrite Nat.min_r by lia.
    destruct (Nat.eqb_spec (List.length ["rank"; "tournament_name"; "prize_pool"; "game"])
                (List.length (columns df))) as [E|_]; [simpl in E; lia|reflexivity].
Qed.

Lemma clean_tournaments_first_four_witness :
  clean_tournaments
    (mkFrame ["#"; "Tournament"; "Prize"; "Game"; "Teams"; "Players"]
       [[CText "1."; CText "The International 2021"; CText "$40,018,195";
         CText "Dota 2"; CText "18 Teams"; CText "90 Players"]]) =
  clean_tournaments
    (mkFrame ["#"; "Tournament"; "Prize"; "Game"]
       [[CText "1."; CText "The International 2021"; CText "$40,018,195";
         CText "Dota 2"]]) /\
  clean_tournaments (mkFrame ["#"; "Tournament"; "Prize"]
                       [[CText "1."; CText "TI"; CText "$1"]]) =
  Raise (ValueError "Length mismatch").
Proof.
  split.
  - apply (proj1 (clean_tournaments_first_four
                    (mkFrame ["#"; "Tournament"; "Prize"; "Game"; "Teams"; "Players"]
                       [[CText "1."; CText "The International 2021";
                         CText "$40,018,195"; CText "Dota 2"; CText "18 Teams";
                         CText "90 Players"]])
                    (mkFrame ["#"; "Tournament"; "Prize"; "Game"]
                       [[CText "1."; CText "The International 2021";
                         CText "$40,018,195"; CText "Dota 2"]])
                    eq_refl)); simpl; lia.
  - apply (proj2 (clean_tournaments_first_four
                    (mkFrame ["#"; "Tournament"; "Prize"]
                       [[CText "1."; CText "TI"; CText "$1"]])
                    (mkFrame ["#"; "Tournament"; "Prize"]
                       [[CText "1."; CText "TI"; CText "$1"]])
                    eq_refl)); simpl; lia.
Defined.

Lemma filter_all {A} (p : A -> bool) l :
  forallb p l = true -> filter p l = l.
Proof.
  induction l as [|a l IH]; simpl; [reflexivity|].
  intros H. apply andb_prop in H as [Ha Hl]. now rewrite Ha, IH.
Qed.

Lemma map_snd_combine {A B} (l : list A) (r : list B) :
  List.length r = List.length l -> map snd (combine l r) = r.
Proof.
  revert r. induction l as [|a l IH]; intros [|b r] H; simpl in *;
    try reflexivity; try discriminate.
  f_equal. apply IH. lia.
Qed.

Lemma mem_false_forall name labels :
  mem name labels = false ->
  forallb (fun l => negb (String.eqb l name)) labels = true.
Proof.
  unfold mem. induction labels as [|l labels IH]; simpl; [reflexivity|].
  intros H. apply orb_false_elim in H as [Hl Hrest].
  rewrite String.eqb_sym, Hl. simpl. now apply IH.
Qed.

Lemma filter_combine_all {B} name labels (r : list B) :
  mem name labels = false ->
  filter (fun lc => negb (String.eqb (fst lc) name)) (combine labels r) =
  combine labels r.
Proof.
  intros H. apply filter_all. apply forallb_forall. intros [l c] Hin.
  apply in_combine_l in Hin. cbn [fst].
  apply mem_false_forall in H. rewrite forallb_forall in H. now apply H.
Qed.

(** X14.  [scrape_players] drops the column labelled "Â" before it maps
    the columns: a page that has this column in front of well-formed rows
    is cleaned exactly as the page without it. *)
Theorem clean_players_drops_stray_column (labels : list string)
    (ranked : list (cell * list cell))
    (Habsent : mem A_CIRCUMFLEX labels = false)
    (Hrows : Forall (fun p => List.length (snd p) = List.length labels) ranked) :
  clean_players (mkFrame (A_CIRCUMFLEX :: labels)
                         (map (fun p => fst p :: snd p) ranked)) =
  clean_players (mkFrame labels (map snd ranked)).
Proof.
  assert (Hdrop : drop_column A_CIRCUMFLEX
                    (mkFrame (A_CIRCUMFLEX :: labels)
                             (map (fun p => fst p :: snd p) ranked)) =
                  mkFrame labels (map snd ranked)).
  { unfold drop_column. cbv zeta. cbn [columns rows filter].
    rewrite String.eqb_refl. cbn [negb]. f_equal.
    - apply filter_all. now apply mem_false_forall.
    - rewrite map_map. apply map_ext_in. intros [c r] Hin.
      cbn [fst snd combine filter]. rewrite String.eqb_refl. cbn [negb].
      rewrite (filter_combine_all _ _ _ Habsent).
      apply map_snd_combine. rewrite Forall_forall in Hrows.
      apply (Hrows _ Hin). }
  unfold clean_players at 1. cbn [columns].
  replace (mem A_CIRCUMFLEX (A_CIRCUMFLEX :: labels)) with true
    by reflexivity.
  rewrite Hdrop. unfold clean_players. cbn [columns]. now rewrite Habsent.
Qed.

Lemma clean_players_drops_stray_column_witness :
  clean_players players_page =
  clean_players
    (mkFrame ["Player ID"; "Player Name"; "Total (Overall)";
              "Highest Paying Game"; "Total (Game)"; "% of Total"]
       [ [CText "N0tail"; CText "Johan Sundstein"; CText "$7,184,163";
          CText "Dota 2"; CText "$7,172,436"; CText "99.84%"] ]).
Proof.
  apply (clean_players_drops_stray_column
           ["Player ID"; "Player Name"; "Total (Overall)";
            "Highest Paying Game"; "Total (Game)"; "% of Total"]
           [ (CText "1.",
              [CText "N0tail"; CText "Johan Sundstein"; CText "$7,184,163";
               CText "Dota 2"; CText "$7,172,436"; CText "99.84%"]) ]
           eq_refl).
  repeat constructor.
Defined.

(** ** Aggregation *)

Lemma flat_map_rows_length {A} (g : DataFrame A -> list (list A)) frames :
  (forall f, List.length (g f) = List.length (rows f)) ->
  List.length (flat_map g frames) =
  list_sum (map (fun f => List.length (rows f)) frames).
Proof.
  intros Hg. induction frames as [|f frames IH]; simpl; [reflexivity|].
  now rewrite length_app, Hg, IH.
Qed.

(** X15.  [pd.concat] neither loses nor invents rows: the aggregated table
    has as many rows as the pages together; and when every row of every
    page has one cell per label of its page, every row of the aggregated
    table has one cell per label of the aggregated table. *)
Theorem pd_concat_rows (frames : list (DataFrame cell)) (df : DataFrame cell)
    (Hconcat : pd_concat frames = Ok df) :
  List.length (rows df) = list_sum (map (fun f => List.length (rows f)) frames) /\
  (Forall (fun f => Forall (fun r => List.length r = List.length (columns f))
                           (rows f)) frames ->
   Forall (fun r => List.length r = List.length (columns df)) (rows df)).
Proof.
  unfold pd_concat in Hconcat. destruct frames as [|f frames]; [discriminate|].
  destruct (same_columns (f :: frames)) eqn:Hsame.
  - inversion Hconcat; subst df; clear Hconcat. cbn [rows columns].
    change (rows f ++ flat_map rows frames) with (flat_map rows (f :: frames)).
    split.
    + now apply flat_map_rows_length.
    + intros Hwf. apply Forall_forall. intros r Hr.
      apply in_flat_map in Hr as (g & Hg & Hr).
      rewrite Forall_forall in Hwf. specialize (Hwf g Hg).
      rewrite Forall_forall in Hwf. rewrite (Hwf r Hr).
      destruct Hg as [<-|Hg]; [reflexivity|].
      simpl in Hsame. rewrite forallb_forall in Hsame.
      now rewrite (labels_eqb_eq _ _ (Hsame g Hg)).
  - destruct (forallb _ (f :: frames)); [|discriminate].
    inversion Hconcat; subst df; clear Hconcat.
    set (u := union_columns (f :: frames)). cbn [rows columns].
    change (reindex u f ++ flat_map (reindex u) frames)
      with (flat_map (reindex u) (f :: frames)).
    split.
    + apply flat_map_rows_length. intros g. unfold reindex. apply length_map.
    + intros _. apply Forall_forall. intros r Hr.
      apply in_flat_map in Hr as (g & _ & Hr). unfold reindex in Hr.
      apply in_map_iff in Hr as (r0 & <- & _). apply length_map.
Qed.

Lemma pd_concat_rows_witness :
  exists df,
    pd_concat [ mkFrame ["Team"] [[CText "TeamA"]; [CText "TeamB"]];
                mkFrame ["Name"] [[CText "TeamC"]] ] = Ok df /\
    List.length (rows df) = 3%nat.
Proof.
  eexists. split; [reflexivity|].
  apply (proj1 (pd_concat_rows
                  [ mkFrame ["Team"] [[CText "TeamA"]; [CText "TeamB"]];
                    mkFrame ["Name"] [[CText "TeamC"]] ] _ eq_refl)).
Defined.

Lemma somes_pages w urls f :
  In f (somes (map (page_of w) urls)) -> exists url, page_of w url = Some f.
Proof.
  induction urls as [|u urls IH]; simpl; [tauto|].
  destruct (page_of w u) as [g|] eqn:E; [|assumption].
  intros [->|H]; eauto.
Qed.

(** X16.  When no delivered table repeats a column label, the aggregator
    returns normally for every list of locators: it prints the fetch
    errors, changes nothing else, and its result is [None] exactly when no
    page delivered a table. *)
Theorem fetch_multiple_tables_returns (w : World) (urls : list string)
    (s : State)
    (Hunique : forall url f, page_of w url = Some f ->
                             unique (columns f) = true) :
  exists r,
    fetch_multiple_tables w urls s = (Ok r, printed s (error_lines w urls)) /\
    (r = None <-> somes (map (page_of w) urls) = []).
Proof.
  rewrite fetch_multiple_tables_run.
  destruct (somes (map (page_of w) urls)) as [|f fs] eqn:E.
  - exists None. split; [reflexivity|tauto].
  - assert (Hall : forallb (fun g => unique (columns g)) (f :: fs) = true).
    { apply forallb_forall. intros g Hg. rewrite <- E in Hg.
      destruct (somes_pages w urls g Hg) as [url Hurl]. now apply Hunique with url. }
    unfold pd_concat. rewrite Hall.
    destruct (same_columns (f :: fs)); eexists;
      (split; [reflexivity|split; discriminate]).
Qed.

Lemma fetch_multiple_tables_returns_witness :
  exists r,
    fetch_multiple_tables
      (world_of [("p1", mkFrame ["Team"] [[CText "TeamA"]]);
                 ("p2", mkFrame ["Name"] [[CText "TeamB"]])])
      ["p1"; "p2"; "p3"] fresh =
    (Ok (Some r),
     mkState [ErrorFetching "p3" (IOError "HTTP Error 404: Not Found")] None 0 0).
Proof.
  destruct (fetch_multiple_tables_returns
              (world_of [("p1", mkFrame ["Team"] [[CText "TeamA"]]);
                         ("p2", mkFrame ["Name"] [[CText "TeamB"]])])
              ["p1"; "p2"; "p3"] fresh) as (r & Hrun & _).
  - intros url f. unfold page_of, world_of. cbn [read_html serve].
    destruct (String.eqb "p1" url); [intros H; inversion H; reflexivity|].
    destruct (String.eqb "p2" url); [intros H; inversion H; reflexivity|].
    discriminate.
  - destruct r as [df|]; [exists df; exact Hrun|].
    vm_compute in Hrun. discriminate Hrun.
Defined.

(** ** The teams pipeline as a whole *)

Lemma frame_of_series_entries (p : value -> bool) n series :
  p VNone = true ->
  (forall s v, In s series -> In v (snd s) -> p v = true) ->
  Forall (fun r => forallb p r = true)
         (rows (drop_duplicates (frame_of_series n series))).
Proof.
  intros Hnone Hp. unfold drop_duplicates, frame_of_series. cbn [rows].
  apply Forall_forall. intros r Hr. apply keep_first_In in Hr.
  apply in_map_iff in Hr as (i & <- & _).
  apply forallb_forall. intros v Hv. apply in_map_iff in Hv as (s & <- & Hs).
  destruct (nth_in_or_default i (snd s) VNone) as [Hin|E];
    [now apply Hp with s|now rewrite E].
Qed.

Lemma clean_teams_values df d :
  clean_teams df = Ok d ->
  Forall (fun r => forallb not_nan r = true) (rows d).
Proof.
  intros H. unfold clean_teams in H. rbind_inv H. inversion H; subst d.
  apply frame_of_series_entries; [reflexivity|].
  intros s v [<-|[<-|[<-|[]]]] Hv; cbn [snd] in Hv;
    apply in_map_iff in Hv as (? & <- & _); reflexivity.
Qed.

Lemma select_teams d :
  columns d = ["team_name"; "revenue"; "tournaments_played"] ->
  Forall (fun r => List.length r = 3%nat) (rows d) ->
  select ["team_name"; "revenue"; "tournaments_played"] d =
  Ok (mkFrame ["team_name"; "revenue"; "tournaments_played"] (rows d)).
Proof.
  intros Hc Hr. unfold select. rewrite Hc. cbn [mapR index_of String.eqb].
  cbn. f_equal. f_equal.
  rewrite <- (map_id (rows d)) at 2. apply map_ext_in. intros r Hin.
  rewrite Forall_forall in Hr. specialize (Hr r Hin).
  destruct r as [|a [|b [|c [|x r]]]]; try discriminate. reflexivity.
Qed.

Lemma clean_teams_shape df d :
  clean_teams df = Ok d ->
  columns d = ["team_name"; "revenue"; "tournaments_played"] /\
  Forall (fun r => List.length r = 3%nat) (rows d).
Proof.
  intros H. unfold clean_teams in H. rbind_inv H. inversion H; subst d.
  match goal with
  | |- context [frame_of_series ?n ?series] =>
      destruct (frame_of_series_shape n series) as (Hc & Hl & _)
  end.
  split; [exact Hc|exact Hl].
Qed.



(** ** The setup script *)

(** X18.  [main] of the setup script never raises, whatever the
    environment: a failing connection and a failing subprocess are both
    caught.  It keeps the lines printed before, and it hands
    [data_scraper.py] to a subprocess once when the file exists and the
    server accepts the connection, and not at all otherwise. *)
Theorem setup_main_never_raises (env : Setup.Env) (s : Setup.State) :
  exists out,
    Setup.main env s =
    (Ok tt,
     Setup.mkState (Setup.printed s ++ out)
       (Setup.launched s ++
        match Setup.path_exists env "data_scraper.py", Setup.connect env with
        | true, Ok _ => ["data_scraper.py"%string]
        | _, _ => []
        end)).
Proof.
  unfold Setup.main, Setup.check_mysql_connection, Setup.run_data_scraper,
    Setup.try_except, Setup.bind, Setup.print, Setup.lift, Setup.ret, Setup.run.
  cbn [Setup.printed Setup.launched].
  destruct (Setup.path_exists env "data_scraper.py"); cbn [negb].
  - destruct (Setup.connect env) as [[]|e]; cbn [negb Setup.printed Setup.launched].
    + destruct (Setup.subprocess_run env "data_scraper.py") as [c|e];
        [destruct (Setup.returncode c =? 0)%Z|];
        cbn [Setup.printed Setup.launched];
        eexists; repeat (rewrite <- app_assoc; cbn [app]); reflexivity.
    + eexists. repeat (rewrite <- app_assoc; cbn [app]).
      rewrite (app_nil_r (Setup.launched s)). reflexivity.
  - cbn [Setup.printed Setup.launched]. eexists.
    repeat (rewrite <- app_assoc; cbn [app]).
    rewrite (app_nil_r (Setup.launched s)). reflexivity.
Qed.

(** X19.  The setup script announces that the setup completed exactly when
    [data_scraper.py] exists, the server accepts the connection, and the
    subprocess ran and exited with code 0; in every other case it prints no
    such line. *)
Theorem setup_main_completed (env : Setup.Env) (s : Setup.State) :
  exists out,
    Setup.printed (snd (Setup.main env s)) = Setup.printed s ++ out /\
    (In Setup.SetupCompleted out <->
     Setup.path_exists env "data_scraper.py" = true /\
     Setup.connect env = Ok tt /\
     exists c, Setup.subprocess_run env "data_scraper.py" = Ok c /\
               Setup.returncode c = 0%Z).
Proof.
  unfold Setup.main, Setup.check_mysql_connection, Setup.run_data_scraper,
    Setup.try_except, Setup.bind, Setup.print, Setup.lift, Setup.ret, Setup.run.
  cbn [Setup.printed Setup.launched].
  destruct (Setup.path_exists env "data_scraper.py"); cbn [negb].
  - destruct (Setup.connect env) as [[]|e]; cbn [negb Setup.printed Setup.launched].
    + destruct (Setup.subprocess_run env "data_scraper.py") as [c|e];
        [destruct (Z.eqb_spec (Setup.returncode c) 0)|];
        cbn [Setup.printed Setup.launched snd];
        eexists; (split; [repeat (rewrite <- app_assoc; cbn [app]); reflexivity|]).
      * split; [intros _|intros _; cbn; intuition congruence].
        repeat split. now exists c.
      * split; [cbn; intuition discriminate|].
        intros (_ & _ & c' & Hc & Hz). congruence.
      * split; [cbn; intuition discriminate|].
        intros (_ & _ & c' & Hc & _). discriminate.
    + eexists. split; [repeat (rewrite <- app_assoc; cbn [app]); reflexivity|].
      split; [cbn; intuition discriminate|].
      intros (_ & Hc & _). discriminate.
  - cbn [Setup.printed Setup.launched snd]. eexists. split; [repeat (rewrite <- app_assoc; cbn [app]); reflexivity|].
    split; [cbn; intuition discriminate|].
    intros (Hp & _). discriminate.
Qed.

(** ** The script block of the scraper *)

(** X20.  Run as a script on a server that has no database
    [esports_data], the scraper raises at the first CSV import (reading the
    file fails, or the engine cannot connect to the database) and changes
    nothing: [main], which alone creates the database, is never reached. *)
Theorem script_needs_database (files : Script.Files) (w : World)
    (s : Script.State)
    (Hnone : server (Script.scraper s) = None) :
  exists e, Script.script files w s = (Raise e, s).
Proof.
  unfold Script.script, Script.bind, Script.import_csv_to_db.
  destruct (Script.read_csv files "VideoGames.csv") as [df|e].
  - rewrite Hnone. eexists. reflexivity.
  - eexists. reflexivity.
Qed.

Lemma script_needs_database_witness :
  let files := Script.mkFiles (fun _ => Ok (mkFrame ["Name"] [[VStr "Doom"]]))
                              (fun _ _ db => Ok db) in
  server (Script.scraper (Script.mkState [] fresh)) = None /\
  exists e,
    Script.script files (world_of [(teams_url, teams_page_three_columns)])
      (Script.mkState [] fresh) =
    (Raise e, Script.mkState [] fresh).
Proof.
  intros files. split; [reflexivity|].
  exact (script_needs_database files _ (Script.mkState [] fresh) eq_refl).
Defined.
